(** * Tuya BLE control surfaces: a shallow embedding and its properties

    The development follows the Python sources file by file:
    - [Py]        the fragment of Python's data model the code relies on
                  (truthiness, [bytes], [zip(strict=True)], [int.to_bytes]);
    - [TuyaBle]   the datapoint store the code imports;
    - [Devices]   product catalog, base entity, connection coordinator;
    - [Switch]    switch mappings, the fingerbot getters and setters, the
                  switch surface and its assembly;
    - [Button]    button mappings, the button surface and its assembly.

    Mutable objects that the Python code shares by reference (the device and
    its datapoints, the coordinator, the event loop) live in one [session]
    value which every operation reads and returns. *)

From Stdlib Require Import ZArith List Bool Lia.
From Stdlib Require Import Strings.Byte Strings.Ascii.
From stdpp Require Import base option gmap strings list fin_maps.

Local Open Scope Z_scope.

(** ** Python values and built-ins *)

Module Py.

(** The exceptions the modelled code can raise. *)
Inductive exn : Set :=
| ValueError
| TypeError.

Inductive result (A : Type) : Type :=
| Ok (a : A)
| Raise (e : exn).
Arguments Ok {A} a.
Arguments Raise {A} e.

#[export] Instance result_bind : MBind result := fun A B k r =>
  match r with
  | Ok a => k a
  | Raise e => Raise e
  end.

(** [bytes] objects: immutable sequences of octets. *)
Abbreviation bytes := (list byte).

(** The values a datapoint can hold ([bytes], [bool], [int], [str]) and
    [None]. *)
Inductive value : Type :=
| VNone
| VBool (b : bool)
| VInt (z : Z)
| VBytes (bs : bytes)
| VStr (s : string).

(** [bool(v)]: Python truthiness. *)
Definition truthy (v : value) : bool :=
  match v with
  | VNone => false
  | VBool b => b
  | VInt z => negb (z =? 0)
  | VBytes bs => match bs with [] => false | _ :: _ => true end
  | VStr s => match s with EmptyString => false | String _ _ => true end
  end.

(** [if mask:] on an optional [bytes] field: [None] and [b''] are falsy. *)
Definition bytes_truthy (o : option bytes) : bool :=
  match o with
  | Some (_ :: _) => true
  | _ => false
  end.

(** [v == n] for an integer literal [n]; [bool] is a subclass of [int]. *)
Definition eq_int (v : value) (n : Z) : bool :=
  match v with
  | VInt z => z =? n
  | VBool b => (if b then 1 else 0) =? n
  | _ => false
  end.

(** [type(v) is bytes]. *)
Definition is_bytes (v : value) : bool :=
  match v with
  | VBytes _ => true
  | _ => false
  end.

(** Iterating over a [bytes] object yields integers in [range(256)]. *)
Definition int_of_byte (b : byte) : Z := Z.of_N (Byte.to_N b).

Definition ints (bs : bytes) : list Z := map int_of_byte bs.

(** One element of [bytes(iterable_of_ints)]: each must be in [range(256)]. *)
Definition byte_of_int (z : Z) : result byte :=
  if (0 <=? z) && (z <? 256) then
    match Byte.of_N (Z.to_N z) with
    | Some b => Ok b
    | None => Raise ValueError
    end
  else Raise ValueError.

(** A Python iterator unfolded to what it does when driven to the end: it
    yields, stops, or raises. *)
Inductive iter (A : Type) : Type :=
| StopIteration
| Raises (e : exn)
| Yield (a : A) (rest : iter A).
Arguments StopIteration {A}.
Arguments Raises {A} e.
Arguments Yield {A} a rest.

(** [zip(xs, ys, strict=True)]: pairs while both have elements, then
    [ValueError] if exactly one of them is exhausted. *)
Fixpoint zip_strict {A B : Type} (xs : list A) (ys : list B) : iter (A * B) :=
  match xs, ys with
  | [], [] => StopIteration
  | x :: xs', y :: ys' => Yield (x, y) (zip_strict xs' ys')
  | _, _ => Raises ValueError
  end.

(** A generator expression [f x for x in it]. *)
Fixpoint gen {A B : Type} (f : A -> B) (it : iter A) : iter B :=
  match it with
  | StopIteration => StopIteration
  | Raises e => Raises e
  | Yield a rest => Yield (f a) (gen f rest)
  end.

(** [bytes(it)] for an iterator of integers. *)
Fixpoint bytes_of_iter (it : iter Z) : result bytes :=
  match it with
  | StopIteration => Ok []
  | Raises e => Raise e
  | Yield z rest =>
      b ← byte_of_int z;
      bs ← bytes_of_iter rest;
      Ok (b :: bs)
  end.

(** [bytes(v)] for a datapoint value: a [bytes] object is copied, an
    integer [n] gives [n] zero bytes (negative: [ValueError]), and [str] or
    [None] raise [TypeError]. *)
Definition to_bytes (v : value) : result bytes :=
  match v with
  | VBytes bs => Ok bs
  | VInt z => if z <? 0 then Raise ValueError else Ok (repeat x00 (Z.to_nat z))
  | VBool b => Ok (if b then [x00] else [])
  | VStr _ => Raise TypeError
  | VNone => Raise TypeError
  end.

(** [int.from_bytes(bs, "big")]. *)
Definition int_from_bytes_big (bs : bytes) : Z :=
  fold_left (fun acc b => acc * 256 + int_of_byte b) bs 0.

(** Big-endian digits of [n], [len] of them, least significant last. *)
Fixpoint be_digits (len : nat) (n : Z) : list Z :=
  match len with
  | O => []
  | S len' => be_digits len' (n / 256) ++ [n mod 256]
  end.

(** [int.to_bytes(n, len, "big")]: [OverflowError] cannot occur for the
    literals the code passes, so the digits are converted directly. *)
Definition int_to_bytes_big (n : Z) (len : nat) : bytes :=
  map (fun z => default x00 (Byte.of_N (Z.to_N z))) (be_digits len n).

(** Slices [bs[a:b]] and [bs[a:]] with non-negative bounds. *)
Definition slice (bs : bytes) (a b : nat) : bytes := firstn (b - a) (skipn a bs).
Definition slice_from (bs : bytes) (a : nat) : bytes := skipn a bs.

End Py.

Import Py.

(** ** Python [str] methods *)

Module PyStr.

(** A [str] is modelled by a string of ASCII characters, which is what a
    Bluetooth address is made of. *)

(** The outcome of code that indexes a list: a value, or [IndexError]. *)
Inductive outcome (A : Type) : Type :=
| Returns (a : A)
| IndexError.
Arguments Returns {A} a.
Arguments IndexError {A}.

Definition is_lower (c : ascii) : bool :=
  (97 <=? nat_of_ascii c)%nat && (nat_of_ascii c <=? 122)%nat.

Definition upper_char (c : ascii) : ascii :=
  if is_lower c then ascii_of_nat (nat_of_ascii c - 32) else c.

(** [s.upper()] on ASCII text: the letters [a]-[z] go to [A]-[Z] and every
    other character stays.  On other text Python's [upper] also maps
    letters outside ASCII, some of them to two characters, so what depends
    on the length of the result is stated for ASCII strings only (see
    [is_ascii]). *)
Fixpoint upper (s : string) : string :=
  match s with
  | EmptyString => EmptyString
  | String c s' => String (upper_char c) (upper s')
  end.

(** [s.replace(old, new)] for one-character [old] and [new]. *)
Fixpoint replace (old new : ascii) (s : string) : string :=
  match s with
  | EmptyString => EmptyString
  | String c s' =>
      String (if Ascii.eqb c old then new else c) (replace old new s')
  end.

(** [s.split(sep)] for a one-character [sep]: the pieces between the
    separators, empty pieces included; never the empty list. *)
Fixpoint split (sep : ascii) (s : string) : list string :=
  match s with
  | EmptyString => [EmptyString]
  | String c s' =>
      if Ascii.eqb c sep then EmptyString :: split sep s'
      else
        match split sep s' with
        | piece :: pieces => String c piece :: pieces
        | [] => [String c EmptyString]
        end
  end.

(** [s.count(c)] for a one-character [c]. *)
Fixpoint count (c : ascii) (s : string) : nat :=
  match s with
  | EmptyString => 0
  | String c' s' => (if Ascii.eqb c' c then 1 else 0) + count c s'
  end.

(** Some character of [s] passes the test [P]. *)
Fixpoint any_char (P : ascii -> bool) (s : string) : bool :=
  match s with
  | EmptyString => false
  | String c s' => P c || any_char P s'
  end.

(** [s.isascii()]: every character is below 128. *)
Definition is_ascii (s : string) : bool :=
  negb (any_char (fun c => (128 <=? nat_of_ascii c)%nat) s).

(** [c in s] for a one-character [c]. *)
Definition contains (c : ascii) (s : string) : bool :=
  any_char (fun c' => Ascii.eqb c' c) s.

(** Some character of [s] is a lower-case letter. *)
Definition has_lower (s : string) : bool := any_char is_lower s.

(** [l[-k]] for [k >= 1]. *)
Definition from_end {A : Type} (l : list A) (k : nat) : outcome A :=
  if (k <=? length l)%nat then
    match l !! (length l - k)%nat with
    | Some x => Returns x
    | None => IndexError
    end
  else IndexError.

Fixpoint drop_chars (n : nat) (s : string) : string :=
  match n, s with
  | O, _ => s
  | S n', EmptyString => EmptyString
  | S n', String _ s' => drop_chars n' s'
  end.

(** [s[-k:]] for [k >= 1]: the last [k] characters, or all of [s]. *)
Definition last_chars (k : nat) (s : string) : string :=
  drop_chars (String.length s - k) s.

(** ["%s" % x] for an optional string: [None] prints as ["None"]. *)
Definition format_s (x : option string) : string :=
  match x with
  | Some s => s
  | None => "None"
  end.

End PyStr.

Import PyStr.

(** ** The datapoint store (package [tuya_ble]) *)

Module TuyaBle.

(** Modelled from the spec: the datapoint type enumeration is declared in
    the [tuya_ble] package, which is not part of the sources.  The code
    names [DT_RAW], [DT_BOOL] and [DT_BITMAP]; every other member is a
    [DT_OTHER]. *)
Inductive TuyaBLEDataPointType : Set :=
| DT_RAW
| DT_BOOL
| DT_BITMAP
| DT_OTHER (tag : nat).

#[export] Instance TuyaBLEDataPointType_eq_dec : EqDecision TuyaBLEDataPointType.
Proof. solve_decision. Defined.

(** Modelled from the spec: a datapoint exposes [id], [type], [value] and
    [changed_by_device] (section 6, [Datapoint.{id, type, value,
    changedByDevice}]); the class itself is declared in [tuya_ble]. *)
Record TuyaBLEDataPoint : Type := {
  id : Z;
  type : TuyaBLEDataPointType;
  value : Py.value;
  changed_by_device : bool;
}.

(** The store is keyed by the integer datapoint id. *)
Abbreviation TuyaBLEDataPoints := (gmap Z TuyaBLEDataPoint).

(** Modelled from the spec: [get(id) -> Datapoint?], written
    [datapoints[id]] in the code.  A datapoint object is truthy, so the
    code's [if datapoint:] asks whether there is one. *)
Definition getitem (dps : TuyaBLEDataPoints) (key : Z) : option TuyaBLEDataPoint :=
  dps !! key.

(** Modelled from the spec: [getOrCreate(id, defaultType, defaultValue) ->
    Datapoint] returns the datapoint stored under [id] and, when there is
    none, stores and returns a new one of the default type and value. *)
Definition get_or_create (dps : TuyaBLEDataPoints) (key : Z)
    (ty : TuyaBLEDataPointType) (v : Py.value) : TuyaBLEDataPoint * TuyaBLEDataPoints :=
  match dps !! key with
  | Some datapoint => (datapoint, dps)
  | None =>
      let datapoint :=
        {| id := key; type := ty; value := v; changed_by_device := false |} in
      (datapoint, <[key := datapoint]> dps)
  end.

(** Modelled from the spec: [hasId(id, type?) -> bool], the store's
    "has id of type" predicate: a datapoint with this id is present and,
    when a type is given, it has that type. *)
Definition has_id (dps : TuyaBLEDataPoints) (key : Z)
    (ty : option TuyaBLEDataPointType) : bool :=
  match dps !! key with
  | Some datapoint =>
      match ty with
      | Some t => bool_decide (type datapoint = t)
      | None => true
      end
  | None => false
  end.

(** A coroutine object produced by [datapoint.set_value(new_value)] and not
    yet run.  It is bound to a datapoint object, and that object is the one
    the store holds under the key [target] it was fetched with. *)
Inductive coroutine : Type :=
| set_value (target : Z) (new_value : Py.value).

(** Modelled from the spec: [Datapoint.setValue(newValue)]; when the write
    completes the datapoint holds the new value. *)
Definition complete (c : coroutine) (dps : TuyaBLEDataPoints) : TuyaBLEDataPoints :=
  match c with
  | set_value target new_value =>
      alter (fun datapoint =>
               {| id := id datapoint; type := type datapoint;
                  value := new_value;
                  changed_by_device := changed_by_device datapoint |}) target dps
  end.

(** The fields of a device the code reads. *)
Record TuyaBLEDevice : Type := {
  category : string;
  product_id : string;
  device_id : string;
  datapoints : TuyaBLEDataPoints;
}.

(** [TuyaBLEDeviceCredentials], with the fields its constructor is called
    with in [ha_mock.py]; the class is declared in [tuya_ble]. *)
Record TuyaBLEDeviceCredentials : Type := {
  uuid : string;
  local_key : string;
  cred_device_id : string;
  cred_category : string;
  cred_product_id : string;
  device_name : string;
  product_model : string;
  product_name : string;
}.

End TuyaBle.

(** ** Entity descriptions ([ha_mock.py]) *)

Module HaMock.

Inductive EntityCategory : Set :=
| CONFIG
| DIAGNOSTIC.

(** [EntityDescription] with the fields the mapping tables set; the switch
    and button descriptions add no field the code reads. *)
Record EntityDescription : Type := {
  key : string;
  entity_category : option EntityCategory;
  icon : option string;
  translation_key : option string;
}.

Definition describe (k : string) : EntityDescription :=
  {| key := k; entity_category := None; icon := None; translation_key := None |}.

(** [HASSTuyaBLEDeviceManager.get_device_credentials]: the two devices it
    knows, looked up by the upper-cased address; any other address falls off
    the end of the function, which returns [None]. *)
Definition get_device_credentials (address : string)
    : option TuyaBle.TuyaBLEDeviceCredentials :=
  if String.eqb (upper address) "DC:23:4E:8B:60:8F" then
    Some {| TuyaBle.uuid := "c3567acc6e99870d";
            TuyaBle.local_key := "F$|yP-$~MZ;qgm'#";
            TuyaBle.cred_device_id := "bf7360fte8jomrnv";
            TuyaBle.cred_category := "szjqr";
            TuyaBle.cred_product_id := "xhf790if";
            TuyaBle.device_name := "CUBETOUCH II";
            TuyaBle.product_model := "";
            TuyaBle.product_name := "CUBETOUCH II" |}
  else if String.eqb (upper address) "DC:23:4D:7B:E1:CE" then
    Some {| TuyaBle.uuid := "xmbmd29e724c403a";
            TuyaBle.local_key := ")YjXO2XH=09}nd#c";
            TuyaBle.cred_device_id := "bf2d2eox9j31au8q";
            TuyaBle.cred_category := "jtmspro";
            TuyaBle.cred_product_id := "rlyxv7pe";
            TuyaBle.device_name := "Smart lock 2";
            TuyaBle.product_model := "";
            TuyaBle.product_name := "Smart lock" |}
  else None.

(** The fields of a [BluetoothServiceInfoBleak] that
    [get_device_readable_name] reads: [address] and [device.name], which
    may be [None]. *)
Record BluetoothServiceInfoBleak : Type := {
  address : string;
  device_name : option string;
}.

End HaMock.

(** ** Product catalog, base entity and coordinator ([devices.py]) *)

Module Devices.

Import TuyaBle.

Record TuyaBLEFingerbotInfo : Type := {
  switch : Z;
  mode : Z;
  up_position : Z;
  down_position : Z;
  hold_time : Z;
  reverse_positions : Z;
  manual_control : Z;
  program : Z;
}.

Record TuyaBLEProductInfo : Type := {
  name : string;
  manufacturer : string;
  fingerbot : option TuyaBLEFingerbotInfo;
}.

Record TuyaBLECategoryInfo : Type := {
  products : gmap string TuyaBLEProductInfo;
  info : option TuyaBLEProductInfo;
}.

(** [get_product_info_by_ids], over the catalog it reads. *)
Definition get_product_info_by_ids_in (database : gmap string TuyaBLECategoryInfo)
    (category product_id : string) : option TuyaBLEProductInfo :=
  match database !! category with
  | Some category_info =>
      match products category_info !! product_id with
      | Some product_info => Some product_info
      | None => info category_info
      end
  | None => None
  end.

(** The handle [async_call_later] returns: calling it cancels the scheduled
    call.  It is identified by the number of the timer it cancels. *)
Definition CALLBACK_TYPE : Set := nat.

Record TuyaBLECoordinator : Type := {
  _disconnected : bool;
  _unsub_disconnect : option CALLBACK_TYPE;
}.

(** The state [__init__] leaves the coordinator in. *)
Definition TuyaBLECoordinator_init : TuyaBLECoordinator :=
  {| _disconnected := true; _unsub_disconnect := None |}.

Definition connected (self : TuyaBLECoordinator) : bool :=
  negb (_disconnected self).

(** The event loop the entities and the coordinator share: the coroutines
    handed to [create_task] that have not run yet, oldest first, and the
    delayed calls armed and not yet fired or cancelled, each with its handle
    and the time left until it fires.  The only callback the coordinator
    could arm is [_set_disconnected]. *)
Record event_loop : Type := {
  tasks : list coroutine;
  timers : list (CALLBACK_TYPE * Z);
}.

(** Everything the surfaces of one device share by reference. *)
Record session : Type := {
  device : TuyaBLEDevice;
  coordinator : TuyaBLECoordinator;
  loop : event_loop;
}.

Definition set_datapoints (dps : TuyaBLEDataPoints) (s : session) : session :=
  {| device := {| category := category (device s);
                  product_id := product_id (device s);
                  device_id := device_id (device s);
                  datapoints := dps |};
     coordinator := coordinator s;
     loop := loop s |}.

Definition set_coordinator (c : TuyaBLECoordinator) (s : session) : session :=
  {| device := device s; coordinator := c; loop := loop s |}.

Definition set_timers (ts : list (CALLBACK_TYPE * Z)) (s : session) : session :=
  {| device := device s; coordinator := coordinator s;
     loop := {| tasks := tasks (loop s); timers := ts |} |}.

(** [TuyaBLEData]: its [device] and [coordinator] are those of the
    session. *)
Record TuyaBLEData : Type := {
  title : string;
  data_session : session;
  product : TuyaBLEProductInfo;
}.

(** [TuyaBLEEntity.available]. *)
Definition available (s : session) : bool :=
  connected (coordinator s).

(** [TuyaBLEEntity.create_task]: [self.loop.create_task(target)]. *)
Definition create_task (target : coroutine) (s : session) : session :=
  {| device := device s; coordinator := coordinator s;
     loop := {| tasks := tasks (loop s) ++ [target]; timers := timers (loop s) |} |}.

(** The event loop runs the coroutines scheduled so far to completion,
    oldest first. *)
Definition run_tasks (s : session) : session :=
  {| device :=
       {| category := category (device s);
          product_id := product_id (device s);
          device_id := device_id (device s);
          datapoints :=
            fold_left (fun dps c => complete c dps) (tasks (loop s))
              (datapoints (device s)) |};
     coordinator := coordinator s;
     loop := {| tasks := []; timers := timers (loop s) |} |}.

(** The writes scheduled and not yet run. *)
Definition pending (s : session) : list coroutine := tasks (loop s).

(** The value the store currently holds for a datapoint id. *)
Definition stored (s : session) (key : Z) : option Py.value :=
  value <$> datapoints (device s) !! key.

(** Calling an unsubscribe handle removes the timer it stands for. *)
Definition cancel (h : CALLBACK_TYPE) (s : session) : session :=
  set_timers (filter (fun t => fst t ≠ h) (timers (loop s))) s.

Section Coordinator.

(** [const.SET_DISCONNECTED_DELAY]; [const.py] is not part of the sources. *)
Variable SET_DISCONNECTED_DELAY : Z.

Definition _async_handle_connect (s : session) : session :=
  let s :=
    match _unsub_disconnect (coordinator s) with
    | Some unsub => cancel unsub s
    | None => s
    end in
  if _disconnected (coordinator s) then
    set_coordinator
      {| _disconnected := false;
         _unsub_disconnect := _unsub_disconnect (coordinator s) |} s
  else s.

(** [_async_handle_update]: the connect transition, then a scan of the
    updates whose body is the placeholder [...]. *)
Definition _async_handle_update (updates : list TuyaBLEDataPoint) (s : session) : session :=
  _async_handle_connect s.

Definition _set_disconnected (s : session) : session :=
  set_coordinator {| _disconnected := true; _unsub_disconnect := None |} s.

(** [_async_handle_disconnect]: with no timer pending it binds the local
    [delay] and does nothing else (the call that would arm the timer is
    commented out in the source). *)
Definition _async_handle_disconnect (s : session) : session :=
  match _unsub_disconnect (coordinator s) with
  | None => let delay := SET_DISCONNECTED_DELAY in s
  | Some _ => s
  end.

(** What can happen to a coordinator: the three transport callbacks, and
    time passing on the event loop. *)
Inductive event : Type :=
| Connected
| Updated (updates : list TuyaBLEDataPoint)
| Disconnected
| Elapse (dt : Z).

(** Time passing: every armed timer gets [dt] closer, and those that become
    due fire, each running [_set_disconnected]. *)
Definition elapse (dt : Z) (s : session) : session :=
  let due := filter (fun t => snd t - dt ≤ 0) (timers (loop s)) in
  let rest := filter (fun t => ¬ (snd t - dt ≤ 0)) (timers (loop s)) in
  let s := set_timers (map (fun t => (fst t, snd t - dt)) rest) s in
  fold_left (fun s _ => _set_disconnected s) due s.

Definition step (s : session) (e : event) : session :=
  match e with
  | Connected => _async_handle_connect s
  | Updated updates => _async_handle_update updates s
  | Disconnected => _async_handle_disconnect s
  | Elapse dt => elapse dt s
  end.

Definition run (s : session) (es : list event) : session :=
  fold_left step es s.

(** The events that show the device is alive: a connect, or an update. *)
Definition liveness (e : event) : bool :=
  match e with
  | Connected | Updated _ => true
  | Disconnected | Elapse _ => false
  end.

End Coordinator.

(** No delayed call is armed and the coordinator holds no handle. *)
Definition quiet (s : session) : Prop :=
  _unsub_disconnect (coordinator s) = None /\ timers (loop s) = [].

(** A session right after [TuyaBLECoordinator(device)]: nothing scheduled. *)
Definition new_session (d : TuyaBLEDevice) : session :=
  {| device := d;
     coordinator := TuyaBLECoordinator_init;
     loop := {| tasks := []; timers := [] |} |}.

Section Catalog.

(** [const.DEVICE_DEF_MANUFACTURER]; [const.py] is not part of the sources. *)
Variable DEVICE_DEF_MANUFACTURER : string.

Definition devices_database : gmap string TuyaBLECategoryInfo :=
  <["szjqr" :=
      {| products :=
           <["xhf790if" :=
               {| name := "CubeTouch II";
                  manufacturer := DEVICE_DEF_MANUFACTURER;
                  fingerbot :=
                    Some {| switch := 1; mode := 2; up_position := 5;
                            down_position := 6; hold_time := 3;
                            reverse_positions := 4;
                            manual_control := 0; program := 0 |} |}]> ∅;
         info := None |}]>
  (<["jtmspro" :=
      {| products :=
           <["rlyxv7pe" :=
               {| name := "A1 PRO MAX";
                  manufacturer := DEVICE_DEF_MANUFACTURER;
                  fingerbot := None |}]> ∅;
         info := None |}]> ∅).

Definition get_product_info_by_ids (category product_id : string)
    : option TuyaBLEProductInfo :=
  get_product_info_by_ids_in devices_database category product_id.

Definition get_device_product_info (d : TuyaBLEDevice) : option TuyaBLEProductInfo :=
  get_product_info_by_ids (category d) (product_id d).

(** The two characters [get_short_address] treats as separators. *)
Definition is_sep (c : ascii) : bool :=
  Ascii.eqb c ":"%char || Ascii.eqb c "-"%char.

(** The form of the address that [get_short_address] splits. *)
Definition normal (s : string) : string :=
  upper (replace "-"%char ":"%char s).

(** [get_short_address]: the three indexings run in the order the f-string
    lists them, so a list of fewer than three pieces fails at [results[-3]]. *)
Definition get_short_address (address : string) : outcome string :=
  let results := split ":"%char (upper (replace "-"%char ":"%char address)) in
  match from_end results 3 with
  | Returns r3 =>
      match from_end results 2 with
      | Returns r2 =>
          match from_end results 1 with
          | Returns r1 => Returns (last_chars 6 (r3 +:+ r2 +:+ r1))
          | IndexError => IndexError
          end
      | IndexError => IndexError
      end
  | IndexError => IndexError
  end.

(** [get_device_readable_name].  The manager is an object or [None]; all
    the function asks of it is [get_device_credentials(address)]. *)
Definition get_device_readable_name
    (discovery_info : HaMock.BluetoothServiceInfoBleak)
    (manager : option (string -> option TuyaBLEDeviceCredentials))
    : outcome string :=
  let credentials :=
    match manager with
    | Some get_device_credentials =>
        get_device_credentials (HaMock.address discovery_info)
    | None => None
    end in
  let product_info :=
    match credentials with
    | Some c => get_product_info_by_ids (cred_category c) (cred_product_id c)
    | None => None
    end in
  match get_short_address (HaMock.address discovery_info) with
  | Returns short_address =>
      match product_info with
      | Some p => Returns (name p +:+ " " +:+ short_address)
      | None =>
          match credentials with
          | Some c => Returns (TuyaBle.device_name c +:+ " " +:+ short_address)
          | None =>
              Returns (format_s (HaMock.device_name discovery_info)
                       +:+ " " +:+ short_address)
          end
      end
  | IndexError => IndexError
  end.

End Catalog.

End Devices.

(** ** Switches ([switch.py]) *)

Module Switch.

Import TuyaBle HaMock Devices.

(** The predicates receive the surface as [self]; what they reach through
    it is the shared session, so that is what they are given here. *)
Definition TuyaBLESwitchGetter : Type :=
  option (session -> TuyaBLEProductInfo -> option bool).

Definition TuyaBLESwitchIsAvailable : Type :=
  option (session -> TuyaBLEProductInfo -> bool).

Definition TuyaBLESwitchSetter : Type :=
  option (session -> TuyaBLEProductInfo -> bool -> session).

Record TuyaBLESwitchMapping : Type := {
  dp_id : Z;
  description : EntityDescription;
  force_add : bool;
  dp_type : option TuyaBLEDataPointType;
  bitmap_mask : option bytes;
  is_available : TuyaBLESwitchIsAvailable;
  getter : TuyaBLESwitchGetter;
  setter : TuyaBLESwitchSetter;
}.

Definition is_fingerbot_in_program_mode (self : session)
    (product : TuyaBLEProductInfo) : bool :=
  match fingerbot product with
  | Some fb =>
      match getitem (datapoints (device self)) (mode fb) with
      | Some datapoint => eq_int (value datapoint) 2
      | None => true
      end
  | None => true
  end.

Definition is_fingerbot_in_switch_mode (self : session)
    (product : TuyaBLEProductInfo) : bool :=
  match fingerbot product with
  | Some fb =>
      match getitem (datapoints (device self)) (mode fb) with
      | Some datapoint => eq_int (value datapoint) 1
      | None => true
      end
  | None => true
  end.

Definition get_fingerbot_program_repeat_forever (self : session)
    (product : TuyaBLEProductInfo) : option bool :=
  match fingerbot product with
  | Some fb =>
      if negb (program fb =? 0) then
        match getitem (datapoints (device self)) (program fb) with
        | Some datapoint =>
            match value datapoint with
            | VBytes bs =>
                let repeat_count := int_from_bytes_big (slice bs 0 2) in
                Some (repeat_count =? 0xFFFF)
            | _ => None
            end
        | None => None
        end
      else None
  | None => None
  end.

Definition set_fingerbot_program_repeat_forever (self : session)
    (product : TuyaBLEProductInfo) (v : bool) : session :=
  match fingerbot product with
  | Some fb =>
      if negb (program fb =? 0) then
        match getitem (datapoints (device self)) (program fb) with
        | Some datapoint =>
            match value datapoint with
            | VBytes bs =>
                let new_value :=
                  int_to_bytes_big (if v then 0xFFFF else 1) 2 ++ slice_from bs 2 in
                create_task (set_value (program fb) (VBytes new_value)) self
            | _ => self
            end
        | None => self
        end
      else self
  | None => self
  end.

(** The dataclass constructors with their defaults. *)
Definition mk_TuyaBLESwitchMapping (dp : Z) (d : EntityDescription)
    : TuyaBLESwitchMapping :=
  {| dp_id := dp; description := d; force_add := true; dp_type := None;
     bitmap_mask := None; is_available := None; getter := None;
     setter := None |}.

Definition TuyaBLEFingerbotSwitchMapping (dp : Z) : TuyaBLESwitchMapping :=
  {| dp_id := dp; description := describe "switch"; force_add := true;
     dp_type := None; bitmap_mask := None;
     is_available := Some is_fingerbot_in_switch_mode;
     getter := None; setter := None |}.

Definition TuyaBLEReversePositionsMapping (dp : Z) : TuyaBLESwitchMapping :=
  {| dp_id := dp;
     description :=
       {| key := "reverse_positions"; entity_category := Some CONFIG;
          icon := Some "mdi:arrow-up-down-bold"; translation_key := None |};
     force_add := true; dp_type := None; bitmap_mask := None;
     is_available := Some is_fingerbot_in_switch_mode;
     getter := None; setter := None |}.

Record TuyaBLECategorySwitchMapping : Type := {
  products : option (gmap string (list TuyaBLESwitchMapping));
  mapping_ : option (list TuyaBLESwitchMapping);
}.

(** [dict.fromkeys(keys, v)]: every key bound to the same [v]. *)
Definition fromkeys {V : Type} (keys : list string) (v : V) : gmap string V :=
  list_to_map (map (fun k => (k, v)) keys).

(** [{**a, **b}]: the entries of [b] override those of [a]. *)
Definition unpack2 {V : Type} (a b : gmap string V) : gmap string V := b ∪ a.

(** The module-level table [mapping]. *)
Definition mapping : gmap string TuyaBLECategorySwitchMapping :=
  <["ms" :=
      {| products :=
           Some (fromkeys ["ludzroix"; "isk2p555"]
                   [mk_TuyaBLESwitchMapping 47 (describe "lock_motor_state")]);
         mapping_ := None |}]>
  (<["szjqr" :=
      {| products :=
           Some (unpack2
                   (fromkeys ["3yqdo5yt"; "xhf790if"]
                      [TuyaBLEFingerbotSwitchMapping 1;
                       TuyaBLEReversePositionsMapping 4])
                   (fromkeys ["ltak7e1p"; "y6kttvd6"; "yrnk7mnn"; "nvr2rocq";
                              "bnt7wajf"; "rvdceqjh"; "5xhbk964"]
                      [TuyaBLEFingerbotSwitchMapping 2;
                       TuyaBLEReversePositionsMapping 11]));
         mapping_ := None |}]>
  (<["jtmspro" :=
      {| products :=
           Some (<["rlyxv7pe" :=
                     [mk_TuyaBLESwitchMapping 78 (describe "special_control")]]> ∅);
         mapping_ := None |}]> ∅)).

(** [get_mapping_by_device], over the table it reads. *)
Definition get_mapping_by_device_in
    (table : gmap string TuyaBLECategorySwitchMapping)
    (d : TuyaBLEDevice) : list TuyaBLESwitchMapping :=
  match table !! category d with
  | Some cat =>
      match products cat with
      | Some prods =>
          match prods !! product_id d with
          | Some product_mapping => product_mapping
          | None =>
              match mapping_ cat with
              | Some category_mapping => category_mapping
              | None => []
              end
          end
      | None => []
      end
  | None => []
  end.

Definition get_mapping_by_device (d : TuyaBLEDevice) : list TuyaBLESwitchMapping :=
  get_mapping_by_device_in mapping d.

(** A switch: the bindings [__init__] stores that the operations read.
    [_coordinator], [_device] and [loop] are references into the session. *)
Record TuyaBLESwitch : Type := {
  _product : TuyaBLEProductInfo;
  _mapping : TuyaBLESwitchMapping;
  entity_description : EntityDescription;
  _attr_unique_id : string;
}.

Definition TuyaBLESwitch_init (d : TuyaBLEDevice) (product : TuyaBLEProductInfo)
    (m : TuyaBLESwitchMapping) : TuyaBLESwitch :=
  {| _product := product;
     _mapping := m;
     entity_description := description m;
     _attr_unique_id := device_id d +:+ "-" +:+ key (description m) |}.

(** [datapoint.type in [DT_RAW, DT_BITMAP]]. *)
Definition raw_or_bitmap (t : TuyaBLEDataPointType) : bool :=
  match t with
  | DT_RAW | DT_BITMAP => true
  | _ => false
  end.

(** The loop of [is_on]: [return True] at the first pair with a common
    bit; falling out of the loop reaches the final [return False]. *)
Fixpoint any_masked (it : iter (Z * Z)) : result (option bool) :=
  match it with
  | StopIteration => Ok (Some false)
  | Raises e => Raise e
  | Yield (v, m) rest =>
      if negb (Z.land v m =? 0) then Ok (Some true) else any_masked rest
  end.

(** The property [is_on]; [None] is Python's [None]. *)
Definition is_on (self : TuyaBLESwitch) (s : session) : result (option bool) :=
  match getter (_mapping self) with
  | Some g => Ok (g s (_product self))
  | None =>
      match getitem (datapoints (device s)) (dp_id (_mapping self)) with
      | Some datapoint =>
          if raw_or_bitmap (type datapoint)
             && bytes_truthy (bitmap_mask (_mapping self)) then
            bitmap_value ← to_bytes (value datapoint);
            let bitmap_mask := default [] (bitmap_mask (_mapping self)) in
            any_masked (zip_strict (ints bitmap_value) (ints bitmap_mask))
          else Ok (Some (truthy (value datapoint)))
      | None => Ok (Some false)
      end
  end.

(** [turn_on] returns the outcome of the call together with the session it
    leaves behind: what [get_or_create] stored stays stored when a later
    statement raises. *)
Definition turn_on (self : TuyaBLESwitch) (s : session) : result unit * session :=
  match setter (_mapping self) with
  | Some set => (Ok (), set s (_product self) true)
  | None =>
      if bytes_truthy (bitmap_mask (_mapping self)) then
        let bitmap_mask := default [] (bitmap_mask (_mapping self)) in
        let '(datapoint, dps) :=
          get_or_create (datapoints (device s)) (dp_id (_mapping self))
            DT_BITMAP (VBytes bitmap_mask) in
        let s := set_datapoints dps s in
        match
          bitmap_value ← to_bytes (value datapoint);
          bytes_of_iter
            (gen (fun '(v, m) => Z.lor v m)
               (zip_strict (ints bitmap_value) (ints bitmap_mask)))
        with
        | Ok new_value =>
            (Ok (),
             create_task (set_value (dp_id (_mapping self)) (VBytes new_value)) s)
        | Raise e => (Raise e, s)
        end
      else
        let '(datapoint, dps) :=
          get_or_create (datapoints (device s)) (dp_id (_mapping self))
            DT_BOOL (VBool true) in
        let s := set_datapoints dps s in
        (Ok (), create_task (set_value (dp_id (_mapping self)) (VBool true)) s)
  end.

Definition turn_off (self : TuyaBLESwitch) (s : session) : result unit * session :=
  match setter (_mapping self) with
  | Some set => (Ok (), set s (_product self) false)
  | None =>
      if bytes_truthy (bitmap_mask (_mapping self)) then
        let bitmap_mask := default [] (bitmap_mask (_mapping self)) in
        let '(datapoint, dps) :=
          get_or_create (datapoints (device s)) (dp_id (_mapping self))
            DT_BITMAP (VBytes bitmap_mask) in
        let s := set_datapoints dps s in
        match
          bitmap_value ← to_bytes (value datapoint);
          bytes_of_iter
            (gen (fun '(v, m) => Z.land v (Z.lnot m))
               (zip_strict (ints bitmap_value) (ints bitmap_mask)))
        with
        | Ok new_value =>
            (Ok (),
             create_task (set_value (dp_id (_mapping self)) (VBytes new_value)) s)
        | Raise e => (Raise e, s)
        end
      else
        let '(datapoint, dps) :=
          get_or_create (datapoints (device s)) (dp_id (_mapping self))
            DT_BOOL (VBool false) in
        let s := set_datapoints dps s in
        (Ok (), create_task (set_value (dp_id (_mapping self)) (VBool false)) s)
  end.

(** The property [available] of a switch. *)
Definition available (self : TuyaBLESwitch) (s : session) : bool :=
  let result := Devices.available s in
  if result then
    match is_available (_mapping self) with
    | Some p => p s (_product self)
    | None => result
    end
  else result.

(** [async_setup_switches], over the table [get_mapping_by_device] reads:
    the loop appends to [entities] in the order of the mapping list. *)
Definition async_setup_switches_in
    (table : gmap string TuyaBLECategorySwitchMapping)
    (data : TuyaBLEData) : list TuyaBLESwitch :=
  let d := device (data_session data) in
  let mappings := get_mapping_by_device_in table d in
  fold_left
    (fun entities m =>
       if force_add m || has_id (datapoints d) (dp_id m) (dp_type m)
       then entities ++ [TuyaBLESwitch_init d (product data) m]
       else entities)
    mappings [].

Definition async_setup_switches (data : TuyaBLEData) : list TuyaBLESwitch :=
  async_setup_switches_in mapping data.

End Switch.

(** ** Buttons ([button.py]) *)

Module Button.

Import TuyaBle HaMock Devices.

(** The values the field [is_available] takes in the source: [None], a
    predicate, and the integer [0] that [TuyaBLELockMapping] uses as its
    default. *)
Inductive TuyaBLEButtonIsAvailable : Type :=
| NoPredicate
| Zero
| Predicate (p : session -> TuyaBLEProductInfo -> bool).

(** Truthiness of the field: only a function object is truthy. *)
Definition configured (a : TuyaBLEButtonIsAvailable) : bool :=
  match a with
  | Predicate _ => true
  | _ => false
  end.

Record TuyaBLEButtonMapping : Type := {
  dp_id : Z;
  description : EntityDescription;
  force_add : bool;
  dp_type : option TuyaBLEDataPointType;
  is_available : TuyaBLEButtonIsAvailable;
}.

Definition TuyaBLELockMapping (dp : Z) (d : EntityDescription)
    : TuyaBLEButtonMapping :=
  {| dp_id := dp; description := d; force_add := true; dp_type := None;
     is_available := Zero |}.

Definition is_fingerbot_in_push_mode (self : session)
    (product : TuyaBLEProductInfo) : bool :=
  match fingerbot product with
  | Some fb =>
      match getitem (datapoints (device self)) (mode fb) with
      | Some datapoint => eq_int (value datapoint) 0
      | None => true
      end
  | None => true
  end.

Definition TuyaBLEFingerbotModeMapping (dp : Z) : TuyaBLEButtonMapping :=
  {| dp_id := dp; description := describe "push"; force_add := true;
     dp_type := None; is_available := Predicate is_fingerbot_in_push_mode |}.

Record TuyaBLECategoryButtonMapping : Type := {
  products : option (gmap string (list TuyaBLEButtonMapping));
  mapping_ : option (list TuyaBLEButtonMapping);
}.

(** The module-level table [mapping]. *)
Definition mapping : gmap string TuyaBLECategoryButtonMapping :=
  <["jtmspro" :=
      {| products :=
           Some (<["rlyxv7pe" :=
                     [TuyaBLELockMapping 46 (describe "manual_lock");
                      TuyaBLELockMapping 6 (describe "manual_unlock")]]> ∅);
         mapping_ := None |}]> ∅.

(** [get_mapping_by_device], over the table it reads. *)
Definition get_mapping_by_device_in
    (table : gmap string TuyaBLECategoryButtonMapping)
    (d : TuyaBLEDevice) : list TuyaBLEButtonMapping :=
  match table !! category d with
  | Some cat =>
      match products cat with
      | Some prods =>
          match prods !! product_id d with
          | Some product_mapping => product_mapping
          | None =>
              match mapping_ cat with
              | Some category_mapping => category_mapping
              | None => []
              end
          end
      | None => []
      end
  | None => []
  end.

Definition get_mapping_by_device (d : TuyaBLEDevice) : list TuyaBLEButtonMapping :=
  get_mapping_by_device_in mapping d.

Record TuyaBLEButton : Type := {
  _product : TuyaBLEProductInfo;
  _mapping : TuyaBLEButtonMapping;
  entity_description : EntityDescription;
  _attr_unique_id : string;
}.

Definition TuyaBLEButton_init (d : TuyaBLEDevice) (product : TuyaBLEProductInfo)
    (m : TuyaBLEButtonMapping) : TuyaBLEButton :=
  {| _product := product;
     _mapping := m;
     entity_description := description m;
     _attr_unique_id := device_id d +:+ "-" +:+ key (description m) |}.

(** [press]: the value negated is the one the store holds when [press]
    runs; the write itself is only scheduled. *)
Definition press (self : TuyaBLEButton) (s : session) : session :=
  let '(datapoint, dps) :=
    get_or_create (datapoints (device s)) (dp_id (_mapping self))
      DT_BOOL (VBool false) in
  let s := set_datapoints dps s in
  create_task
    (set_value (dp_id (_mapping self)) (VBool (negb (truthy (value datapoint))))) s.

(** The property [available] of a button. *)
Definition available (self : TuyaBLEButton) (s : session) : bool :=
  let result := Devices.available s in
  if result then
    match is_available (_mapping self) with
    | Predicate p => p s (_product self)
    | NoPredicate | Zero => result
    end
  else result.

(** [async_setup_buttons], over the table [get_mapping_by_device] reads. *)
Definition async_setup_buttons_in
    (table : gmap string TuyaBLECategoryButtonMapping)
    (data : TuyaBLEData) : list TuyaBLEButton :=
  let d := device (data_session data) in
  let mappings := get_mapping_by_device_in table d in
  fold_left
    (fun entities m =>
       if force_add m || has_id (datapoints d) (dp_id m) (dp_type m)
       then entities ++ [TuyaBLEButton_init d (product data) m]
       else entities)
    mappings [].

Definition async_setup_buttons (data : TuyaBLEData) : list TuyaBLEButton :=
  async_setup_buttons_in mapping data.

(** A press, then the loop running what is scheduled. *)
Definition press_then_run (self : TuyaBLEButton) (s : session) : session :=
  run_tasks (press self s).

End Button.

(** ** The override rule, as the specification words it *)

Module Spec.








(** "fetch-or-create a boolean datapoint (default [default]) and set it to
    the literal target boolean": the write is scheduled, not awaited. *)
Definition bool_write (sw : Switch.TuyaBLESwitch) (s : Devices.session)
    (default target : bool) : result unit * Devices.session :=
  let key := Switch.dp_id (Switch._mapping sw) in
  let dps :=
    snd (TuyaBle.get_or_create (TuyaBle.datapoints (Devices.device s)) key
           TuyaBle.DT_BOOL (VBool default)) in
  (Ok (),
   Devices.create_task (TuyaBle.set_value key (VBool target))
     (Devices.set_datapoints dps s)).

(** "bitmap-length matching during mask operations ... degrades to no-op /
    false rather than erroring": [is_on] reads false, and [turn_on] and
    [turn_off] return normally and change nothing. *)
Definition mismatch_degrades (sw : Switch.TuyaBLESwitch) (s : Devices.session) : Prop :=
  Switch.is_on sw s = Ok (Some false)
  /\ Switch.turn_on sw s = (Ok (), s)
  /\ Switch.turn_off sw s = (Ok (), s).

(** "[turn_on] issues a write of the bytewise [value | mask], [turn_off]
    issues a write of the bytewise [value & ~mask]". *)
Definition bitmap_writes (sw : Switch.TuyaBLESwitch) (s : Devices.session)
    (bs mask : bytes) : Prop :=
  let key := Switch.dp_id (Switch._mapping sw) in
  exists w_on w_off : bytes,
    Switch.turn_on sw s
    = (Ok (), Devices.create_task (TuyaBle.set_value key (VBytes w_on)) s)
    /\ ints w_on = zip_with Z.lor (ints bs) (ints mask)
    /\ Switch.turn_off sw s
       = (Ok (), Devices.create_task (TuyaBle.set_value key (VBytes w_off)) s)
    /\ ints w_off = zip_with (fun v m => Z.land v (Z.lnot m)) (ints bs) (ints mask).

(** The mask has a bit set somewhere. *)
Definition some_bit (mask : bytes) : bool :=
  existsb (fun m => negb (m =? 0)) (ints mask).

(** The test of the loop in [is_on]: the masked byte is non-zero. *)
Definition masked (p : Z * Z) : bool := negb (Z.land (fst p) (snd p) =? 0).

End Spec.

(** ** Sample data *)

Module Sample.

Import TuyaBle HaMock Devices.

(** A fingerbot whose program datapoint has id 121. *)
Definition fingerbot_info : TuyaBLEFingerbotInfo :=
  {| switch := 2; mode := 101; up_position := 106; down_position := 102;
     hold_time := 103; reverse_positions := 104; manual_control := 107;
     program := 121 |}.

Definition fingerbot_product : TuyaBLEProductInfo :=
  {| name := "Fingerbot Plus"; manufacturer := "Tuya";
     fingerbot := Some fingerbot_info |}.

Definition plain_product : TuyaBLEProductInfo :=
  {| name := "A1 PRO MAX"; manufacturer := "Tuya"; fingerbot := None |}.

Definition device_with (dps : TuyaBLEDataPoints) : TuyaBLEDevice :=
  {| category := "szjqr"; product_id := "xhf790if";
     device_id := "bf7360fte8jomrnv"; datapoints := dps |}.

Definition datapoint (key : Z) (ty : TuyaBLEDataPointType) (v : Py.value)
    : TuyaBLEDataPoint :=
  {| id := key; type := ty; value := v; changed_by_device := true |}.

(** A session whose store holds exactly the given datapoints. *)
Definition session_with (dps : list TuyaBLEDataPoint) : session :=
  new_session (device_with (list_to_map (map (fun dp => (id dp, dp)) dps))).

(** A session whose coordinator has seen a connect callback. *)
Definition connected_session (dps : list TuyaBLEDataPoint) : session :=
  _async_handle_connect (session_with dps).

(** A switch on the boolean datapoint 78, with the dataclass defaults. *)
Definition bool_switch : Switch.TuyaBLESwitch :=
  Switch.TuyaBLESwitch_init (device_with ∅) plain_product
    (Switch.mk_TuyaBLESwitchMapping 78 (describe "special_control")).

(** A switch on two bits of the two-byte bitmap datapoint 20. *)
Definition bitmap_mapping : Switch.TuyaBLESwitchMapping :=
  {| Switch.dp_id := 20; Switch.description := describe "alarm";
     Switch.force_add := true; Switch.dp_type := Some DT_BITMAP;
     Switch.bitmap_mask := Some [x01; x80];
     Switch.is_available := None; Switch.getter := None;
     Switch.setter := None |}.

Definition bitmap_switch : Switch.TuyaBLESwitch :=
  Switch.TuyaBLESwitch_init (device_with ∅) plain_product bitmap_mapping.

(** The same mask on a mapping that also carries a setter. *)
Definition bitmap_setter_switch : Switch.TuyaBLESwitch :=
  Switch.TuyaBLESwitch_init (device_with ∅) plain_product
    {| Switch.dp_id := 20; Switch.description := describe "alarm";
       Switch.force_add := true; Switch.dp_type := Some DT_BITMAP;
       Switch.bitmap_mask := Some [x01; x80];
       Switch.is_available := None; Switch.getter := None;
       Switch.setter := Some Switch.set_fingerbot_program_repeat_forever |}.

(** The same mask on a mapping that also carries a getter. *)
Definition bitmap_getter_switch : Switch.TuyaBLESwitch :=
  Switch.TuyaBLESwitch_init (device_with ∅) plain_product
    {| Switch.dp_id := 20; Switch.description := describe "alarm";
       Switch.force_add := true; Switch.dp_type := Some DT_BITMAP;
       Switch.bitmap_mask := Some [x01; x80];
       Switch.is_available := None;
       Switch.getter := Some Switch.get_fingerbot_program_repeat_forever;
       Switch.setter := None |}.

(** A mapping whose mask is the empty [bytes] object. *)
Definition empty_mask_switch : Switch.TuyaBLESwitch :=
  Switch.TuyaBLESwitch_init (device_with ∅) plain_product
    {| Switch.dp_id := 20; Switch.description := describe "alarm";
       Switch.force_add := true; Switch.dp_type := Some DT_BITMAP;
       Switch.bitmap_mask := Some [];
       Switch.is_available := None; Switch.getter := None;
       Switch.setter := None |}.

(** The program-repeat switch of a fingerbot. *)
Definition repeat_mapping : Switch.TuyaBLESwitchMapping :=
  {| Switch.dp_id := 121; Switch.description := describe "program_repeat_forever";
     Switch.force_add := true; Switch.dp_type := None;
     Switch.bitmap_mask := None;
     Switch.is_available := Some Switch.is_fingerbot_in_program_mode;
     Switch.getter := Some Switch.get_fingerbot_program_repeat_forever;
     Switch.setter := Some Switch.set_fingerbot_program_repeat_forever |}.

Definition repeat_switch : Switch.TuyaBLESwitch :=
  Switch.TuyaBLESwitch_init (device_with ∅) fingerbot_product repeat_mapping.

(** A switch and a button that are only shown when the store has their
    datapoint. *)
Definition optional_switch_mapping : Switch.TuyaBLESwitchMapping :=
  {| Switch.dp_id := 47; Switch.description := describe "lock_motor_state";
     Switch.force_add := false; Switch.dp_type := Some DT_BOOL;
     Switch.bitmap_mask := None;
     Switch.is_available := None; Switch.getter := None;
     Switch.setter := None |}.

Definition lock_button : Button.TuyaBLEButton :=
  Button.TuyaBLEButton_init (device_with ∅) plain_product
    (Button.TuyaBLELockMapping 46 (describe "manual_lock")).







End Sample.

(** * Properties *)

Import TuyaBle HaMock Devices.

(** ** Resolution of the product catalog and of the mapping tables *)

Section Resolution.













(** The tables answer as the Python dictionaries do. *)
Example resolve_cubetouch :
  let d := Sample.device_with ∅ in
  get_device_product_info "Tuya" d
  = Some {| name := "CubeTouch II"; manufacturer := "Tuya";
            fingerbot :=
              Some {| switch := 1; mode := 2; up_position := 5;
                      down_position := 6; hold_time := 3;
                      reverse_positions := 4; manual_control := 0;
                      program := 0 |} |}
  /\ Switch.get_mapping_by_device d
     = [Switch.TuyaBLEFingerbotSwitchMapping 1;
        Switch.TuyaBLEReversePositionsMapping 4]
  /\ Button.get_mapping_by_device d = [].
Proof. by vm_compute. Qed.

Example resolve_unknown_product :
  let d := {| category := "szjqr"; product_id := "unknown";
              device_id := "x"; datapoints := ∅ |} in
  get_device_product_info "Tuya" d = None
  /\ Switch.get_mapping_by_device d = []
  /\ Button.get_mapping_by_device d = [].
Proof. by vm_compute. Qed.

End Resolution.

(** ** Availability *)

Section Availability.

Lemma switch_available_eq (self : Switch.TuyaBLESwitch) (s : session) :
  Switch.available self s
  = connected (coordinator s)
    && match Switch.is_available (Switch._mapping self) with
       | Some p => p s (Switch._product self)
       | None => true
       end.
Proof.
  unfold Switch.available, available.
  destruct (connected (coordinator s)); simpl; [|done].
  by destruct (Switch.is_available _).
Qed.

Lemma button_available_eq (self : Button.TuyaBLEButton) (s : session) :
  Button.available self s
  = connected (coordinator s)
    && match Button.is_available (Button._mapping self) with
       | Button.Predicate p => p s (Button._product self)
       | _ => true
       end.
Proof.
  unfold Button.available, available.
  destruct (connected (coordinator s)); simpl; [|done].
  by destruct (Button.is_available _).
Qed.

(** C7.  For every switch and every button, in every session: while the
    coordinator reports disconnected the surface is unavailable, whatever
    predicate its mapping carries; while the coordinator reports connected,
    [available] is the result of the mapping's predicate when one is
    configured and [true] otherwise (for a button, the placeholder [0] of
    [TuyaBLELockMapping] counts as no predicate). *)
Theorem available_gated_by_coordinator
    (sw : Switch.TuyaBLESwitch) (bt : Button.TuyaBLEButton) (s : session) :
  (connected (coordinator s) = false ->
     Switch.available sw s = false /\ Button.available bt s = false)
  /\ (connected (coordinator s) = true ->
        Switch.available sw s
        = match Switch.is_available (Switch._mapping sw) with
          | Some p => p s (Switch._product sw)
          | None => true
          end
        /\ Button.available bt s
           = match Button.is_available (Button._mapping bt) with
             | Button.Predicate p => p s (Button._product bt)
             | Button.NoPredicate | Button.Zero => true
             end).
Proof.
  rewrite switch_available_eq, button_available_eq.
  split; intros ->; simpl; split; done.
Qed.

End Availability.

(** ** Assembly of the surfaces *)

Section Assembly.

Context {M E : Type}.
Variable keep : M -> bool.
Variable build : M -> E.

(** Both setup loops append the surface of every mapping that passes the
    test: they compute a filter followed by a map. *)
Lemma setup_loop_filter (mappings : list M) (entities : list E) :
  fold_left
    (fun entities m => if keep m then entities ++ [build m] else entities)
    mappings entities
  = entities ++ map build (List.filter keep mappings).
Proof.
  revert entities; induction mappings as [|m ms IH]; intros entities; simpl.
  - by rewrite app_nil_r.
  - rewrite IH. destruct (keep m); simpl; [|done].
    by rewrite <- app_assoc.
Qed.

End Assembly.

Section Setup.

(** The test of the switch loop and of the button loop. *)
Let switch_kept (d : TuyaBLEDevice) (m : Switch.TuyaBLESwitchMapping) : bool :=
  Switch.force_add m
  || has_id (datapoints d) (Switch.dp_id m) (Switch.dp_type m).

Let button_kept (d : TuyaBLEDevice) (m : Button.TuyaBLEButtonMapping) : bool :=
  Button.force_add m
  || has_id (datapoints d) (Button.dp_id m) (Button.dp_type m).

Lemma async_setup_switches_in_filter
    (table : gmap string Switch.TuyaBLECategorySwitchMapping) (data : TuyaBLEData) :
  let d := device (data_session data) in
  Switch.async_setup_switches_in table data
  = map (Switch.TuyaBLESwitch_init d (product data))
      (List.filter (switch_kept d) (Switch.get_mapping_by_device_in table d)).
Proof.
  unfold Switch.async_setup_switches_in, switch_kept; simpl.
  by rewrite setup_loop_filter.
Qed.

Lemma async_setup_buttons_in_filter
    (table : gmap string Button.TuyaBLECategoryButtonMapping) (data : TuyaBLEData) :
  let d := device (data_session data) in
  Button.async_setup_buttons_in table data
  = map (Button.TuyaBLEButton_init d (product data))
      (List.filter (button_kept d) (Button.get_mapping_by_device_in table d)).
Proof.
  unfold Button.async_setup_buttons_in, button_kept; simpl.
  by rewrite setup_loop_filter.
Qed.

Lemma has_id_absent (dps : TuyaBLEDataPoints) (key : Z)
    (ty : option TuyaBLEDataPointType) :
  dps !! key = None -> has_id dps key ty = false.
Proof. intros H. unfold has_id. by rewrite H. Qed.

(** C8.  Whatever the mapping tables hold, for every device the switches
    (and the buttons) that setup returns are, in the order of the resolved
    mapping list, the surfaces of exactly those mappings whose [force_add]
    is true or for which the store's [has_id] answers true for the
    mapping's id and type.  In particular a mapping with [force_add] true
    is always among them, and one with [force_add] false whose id is absent
    from the store is not. *)
Theorem setup_keeps_forced_or_present
    (stable : gmap string Switch.TuyaBLECategorySwitchMapping)
    (btable : gmap string Button.TuyaBLECategoryButtonMapping)
    (data : TuyaBLEData) :
  let d := device (data_session data) in
  let switches := Switch.async_setup_switches_in stable data in
  let buttons := Button.async_setup_buttons_in btable data in
  (switches
   = map (Switch.TuyaBLESwitch_init d (product data))
       (List.filter
          (fun m => Switch.force_add m
                    || has_id (datapoints d) (Switch.dp_id m) (Switch.dp_type m))
          (Switch.get_mapping_by_device_in stable d))
   /\ buttons
      = map (Button.TuyaBLEButton_init d (product data))
          (List.filter
             (fun m => Button.force_add m
                       || has_id (datapoints d) (Button.dp_id m) (Button.dp_type m))
             (Button.get_mapping_by_device_in btable d)))
  /\ (forall m, In m (Switch.get_mapping_by_device_in stable d) ->
        (Switch.force_add m = true -> In m (map Switch._mapping switches))
        /\ (Switch.force_add m = false ->
            datapoints d !! Switch.dp_id m = None ->
            ~ In m (map Switch._mapping switches)))
  /\ (forall m, In m (Button.get_mapping_by_device_in btable d) ->
        (Button.force_add m = true -> In m (map Button._mapping buttons))
        /\ (Button.force_add m = false ->
            datapoints d !! Button.dp_id m = None ->
            ~ In m (map Button._mapping buttons))).
Proof.
  intros d switches buttons. subst switches buttons.
  pose proof (async_setup_switches_in_filter stable data) as Hs.
  pose proof (async_setup_buttons_in_filter btable data) as Hb.
  simpl in Hs, Hb. fold d in Hs, Hb. unfold switch_kept in Hs. unfold button_kept in Hb.
  split; [by split|].
  rewrite Hs, Hb, !map_map; simpl. rewrite !map_id.
  split; intros m Hin; rewrite filter_In; split.
  - intros Hf. split; [done|]. by rewrite Hf.
  - intros Hf Habs [_ Hk]. rewrite Hf, (has_id_absent _ _ _ Habs) in Hk. done.
  - intros Hf. split; [done|]. by rewrite Hf.
  - intros Hf Habs [_ Hk]. rewrite Hf, (has_id_absent _ _ _ Habs) in Hk. done.
Qed.

End Setup.

(** ** The session after an operation *)

Section SessionFacts.

Lemma set_datapoints_same (s : session) :
  set_datapoints (datapoints (device s)) s = s.
Proof. by destruct s as [[] ? ?]. Qed.

Lemma pending_create_task (c : coroutine) (s : session) :
  pending (create_task c s) = pending s ++ [c].
Proof. done. Qed.

Lemma pending_set_datapoints (dps : TuyaBLEDataPoints) (s : session) :
  pending (set_datapoints dps s) = pending s.
Proof. done. Qed.

Lemma get_or_create_present (dps : TuyaBLEDataPoints) (key : Z)
    (ty : TuyaBLEDataPointType) (v : Py.value) (dp : TuyaBLEDataPoint) :
  dps !! key = Some dp -> get_or_create dps key ty v = (dp, dps).
Proof. intros H. unfold get_or_create. by rewrite H. Qed.

Lemma get_or_create_absent (dps : TuyaBLEDataPoints) (key : Z)
    (ty : TuyaBLEDataPointType) (v : Py.value) :
  dps !! key = None ->
  get_or_create dps key ty v
  = ({| id := key; type := ty; value := v; changed_by_device := false |},
     <[key := {| id := key; type := ty; value := v;
                 changed_by_device := false |}]> dps).
Proof. intros H. unfold get_or_create. by rewrite H. Qed.

(** What [get_or_create] returns is what the store holds afterwards. *)
Lemma get_or_create_lookup (dps : TuyaBLEDataPoints) (key : Z)
    (ty : TuyaBLEDataPointType) (v : Py.value) :
  snd (get_or_create dps key ty v) !! key = Some (fst (get_or_create dps key ty v)).
Proof.
  unfold get_or_create. destruct (dps !! key) eqn:H; simpl; [done|].
  by rewrite lookup_insert_eq.
Qed.

Lemma get_or_create_value (dps : TuyaBLEDataPoints) (key : Z)
    (ty : TuyaBLEDataPointType) (v : Py.value) :
  value (fst (get_or_create dps key ty v)) = default v (value <$> dps !! key).
Proof. unfold get_or_create. by destruct (dps !! key). Qed.

(** Completing a write keeps every datapoint in place. *)
Lemma complete_lookup_ne (c : coroutine) (dps : TuyaBLEDataPoints) (key : Z) :
  (match c with set_value target _ => target end) ≠ key ->
  complete c dps !! key = dps !! key.
Proof. destruct c as [target v]; simpl. intros H. by rewrite lookup_alter_ne. Qed.

Lemma complete_value (dps : TuyaBLEDataPoints) (key : Z) (v : Py.value) :
  is_Some (dps !! key) ->
  value <$> complete (set_value key v) dps !! key = Some v.
Proof.
  intros [dp H]. simpl. rewrite lookup_alter_eq, H. done.
Qed.

Lemma complete_is_Some (c : coroutine) (dps : TuyaBLEDataPoints) (key : Z) :
  is_Some (dps !! key) -> is_Some (complete c dps !! key).
Proof.
  destruct c as [target v]; simpl. intros [dp H].
  destruct (decide (target = key)) as [->|Hne].
  - rewrite lookup_alter_eq, H. simpl. eauto.
  - rewrite lookup_alter_ne by done. eauto.
Qed.

Lemma complete_all_is_Some (cs : list coroutine) (dps : TuyaBLEDataPoints) (key : Z) :
  is_Some (dps !! key) ->
  is_Some (fold_left (fun dps c => complete c dps) cs dps !! key).
Proof.
  revert dps; induction cs as [|c cs IH]; intros dps H; simpl; [done|].
  apply IH, complete_is_Some, H.
Qed.

(** The last write scheduled for a datapoint decides its value once the
    loop has run. *)
Lemma stored_run_tasks_last (s : session) (cs : list coroutine) (key : Z) (v : Py.value) :
  is_Some (datapoints (device s) !! key) ->
  pending s = cs ++ [set_value key v] ->
  stored (run_tasks s) key = Some v.
Proof.
  unfold stored, run_tasks, pending; simpl. intros Hsome ->.
  rewrite fold_left_app; simpl.
  rewrite lookup_alter_eq.
  destruct (complete_all_is_Some cs _ key Hsome) as [dp ->]. done.
Qed.

End SessionFacts.

(** ** Button press *)

Section Press.

Variable bt : Button.TuyaBLEButton.

Let key : Z := Button.dp_id (Button._mapping bt).

(** The value [press] negates: the one in the store, or the default
    [False] the datapoint is created with. *)
Let current (s : session) : Py.value := default (VBool false) (stored s key).

Lemma press_pending (s : session) :
  pending (Button.press bt s)
  = pending s ++ [set_value key (VBool (negb (truthy (current s))))].
Proof.
  unfold Button.press, current, stored. fold key.
  destruct (get_or_create _ key DT_BOOL (VBool false)) as [dp dps] eqn:Hg.
  rewrite pending_create_task, pending_set_datapoints.
  pose proof (get_or_create_value (datapoints (device s)) key DT_BOOL (VBool false)) as Hv.
  rewrite Hg in Hv; simpl in Hv. by rewrite Hv.
Qed.

Lemma press_datapoints (s : session) :
  datapoints (device (Button.press bt s))
  = snd (get_or_create (datapoints (device s)) key DT_BOOL (VBool false)).
Proof.
  unfold Button.press. fold key.
  by destruct (get_or_create _ key DT_BOOL (VBool false)).
Qed.

Lemma press_stored (s : session) :
  stored (Button.press bt s) key = Some (current s).
Proof.
  unfold stored at 1. rewrite press_datapoints, get_or_create_lookup; simpl.
  by rewrite get_or_create_value.
Qed.

Lemma press_current (s : session) :
  current (Button.press bt s) = current s.
Proof. unfold current at 1. by rewrite press_stored. Qed.

(** C9.  For every button and session, [press] leaves the addressed
    datapoint in the store (created as a boolean with value [False] when it
    was absent) and schedules, after the writes already pending, one write
    of the negation of the value the store holds at that moment.  So a
    press on a datapoint currently [False] schedules a write of [True]; a
    second press before the loop has run negates the same, still unchanged
    store value again; and a press after the loop has run the write negates
    the value just written. *)
Theorem press_negates_current_store_value (s : session) :
  let write (v : Py.value) := set_value key (VBool (negb (truthy v))) in
  datapoints (device (Button.press bt s))
  = snd (get_or_create (datapoints (device s)) key DT_BOOL (VBool false))
  /\ stored (Button.press bt s) key = Some (current s)
  /\ pending (Button.press bt s) = pending s ++ [write (current s)]
  /\ (current s = VBool false ->
      pending (Button.press bt s) = pending s ++ [set_value key (VBool true)])
  /\ pending (Button.press bt (Button.press bt s))
     = pending s ++ [write (current s); write (current s)]
  /\ pending (Button.press bt (run_tasks (Button.press bt s)))
     = [write (VBool (negb (truthy (current s))))].
Proof.
  intros write.
  split; [apply press_datapoints|].
  split; [apply press_stored|].
  split; [apply press_pending|].
  split; [intros H; by rewrite press_pending, H|].
  split.
  - rewrite !press_pending, press_current, <- app_assoc. done.
  - rewrite press_pending. unfold current at 1.
    erewrite stored_run_tasks_last; [done| |apply press_pending].
    rewrite press_datapoints, get_or_create_lookup. eauto.
Qed.

End Press.

(** ** Reading a switch through a getter *)

Section Getter.

Lemma repeat_forever_getter_none (s : session) (product : TuyaBLEProductInfo) :
  (forall fb, fingerbot product = Some fb ->
     stored s (program fb) = None
     \/ exists v, stored s (program fb) = Some v /\ is_bytes v = false) ->
  Switch.get_fingerbot_program_repeat_forever s product = None.
Proof.
  intros H. unfold Switch.get_fingerbot_program_repeat_forever.
  destruct (fingerbot product) as [fb|]; [|done].
  destruct (negb (program fb =? 0)); [|done].
  unfold getitem. specialize (H fb eq_refl). unfold stored in H.
  destruct (datapoints (device s) !! program fb) as [dp|]; [|done].
  simpl in H. destruct H as [H|(v & [= <-] & Hv)]; [done|].
  by destruct (value dp).
Qed.

(** C10.  For every switch whose mapping configures a getter, [is_on]
    returns exactly what the getter returns, which need not be a boolean:
    when the getter is [get_fingerbot_program_repeat_forever] and the
    fingerbot program datapoint is absent from the store, or holds a value
    that is not a [bytes] object, [is_on] returns [None]. *)
Theorem is_on_returns_getter_result_unmodified
    (sw : Switch.TuyaBLESwitch) (s : session)
    (g : session -> TuyaBLEProductInfo -> option bool) :
  Switch.getter (Switch._mapping sw) = Some g ->
  Switch.is_on sw s = Ok (g s (Switch._product sw))
  /\ (g = Switch.get_fingerbot_program_repeat_forever ->
      (forall fb, fingerbot (Switch._product sw) = Some fb ->
         stored s (program fb) = None
         \/ exists v, stored s (program fb) = Some v /\ is_bytes v = false) ->
      Switch.is_on sw s = Ok None).
Proof.
  intros Hg. unfold Switch.is_on. rewrite Hg. split; [done|].
  intros -> H. by rewrite repeat_forever_getter_none.
Qed.

End Getter.

Lemma is_on_returns_getter_result_unmodified_witness :
  Switch.getter (Switch._mapping Sample.repeat_switch)
  = Some Switch.get_fingerbot_program_repeat_forever
  /\ Switch.is_on Sample.repeat_switch (Sample.session_with []) = Ok None.
Proof.
  split; [reflexivity|].
  apply (is_on_returns_getter_result_unmodified Sample.repeat_switch
           (Sample.session_with []) Switch.get_fingerbot_program_repeat_forever);
    [reflexivity|reflexivity|].
  intros fb [= <-]. left. reflexivity.
Defined.

(** ** Switching a boolean datapoint *)

Section BoolSwitch.

Lemma turn_on_bool (sw : Switch.TuyaBLESwitch) (s : session) :
  Switch.setter (Switch._mapping sw) = None ->
  bytes_truthy (Switch.bitmap_mask (Switch._mapping sw)) = false ->
  Switch.turn_on sw s = Spec.bool_write sw s true true.
Proof.
  intros Hs Hm. unfold Switch.turn_on, Spec.bool_write. rewrite Hs, Hm.
  by destruct (get_or_create _ _ DT_BOOL (VBool true)).
Qed.

Lemma turn_off_bool (sw : Switch.TuyaBLESwitch) (s : session) :
  Switch.setter (Switch._mapping sw) = None ->
  bytes_truthy (Switch.bitmap_mask (Switch._mapping sw)) = false ->
  Switch.turn_off sw s = Spec.bool_write sw s false false.
Proof.
  intros Hs Hm. unfold Switch.turn_off, Spec.bool_write. rewrite Hs, Hm.
  by destruct (get_or_create _ _ DT_BOOL (VBool false)).
Qed.

(** C3, as stated, fails: with an empty store [turn_on] creates the
    datapoint with value [True], where the claim has it created with the
    default [False]. *)
Lemma turn_on_creates_true_counterexample :
  stored (snd (Switch.turn_on Sample.bool_switch (Sample.session_with []))) 78
  = Some (VBool true)
  /\ stored (snd (Spec.bool_write Sample.bool_switch (Sample.session_with [])
                    false true)) 78
     = Some (VBool false)
  /\ ~ (Switch.turn_on Sample.bool_switch (Sample.session_with [])
        = Spec.bool_write Sample.bool_switch (Sample.session_with []) false true).
Proof.
  split; [reflexivity|]. split; [reflexivity|].
  intros H. apply (f_equal (fun r => stored (snd r) 78)) in H.
  vm_compute in H. discriminate H.
Qed.

(** C3, amended.  For every switch with no setter and no (non-empty)
    bitmap mask, [turn_on] fetches or creates the addressed datapoint as a
    boolean with default value [True] and schedules a write of [True];
    [turn_off] fetches or creates it with default value [False] and
    schedules a write of [False].  Neither raises, and the write goes after
    the writes already pending. *)
Theorem turn_on_off_write_literal_boolean
    (sw : Switch.TuyaBLESwitch) (s : session) :
  Switch.setter (Switch._mapping sw) = None ->
  bytes_truthy (Switch.bitmap_mask (Switch._mapping sw)) = false ->
  let key := Switch.dp_id (Switch._mapping sw) in
  (Switch.turn_on sw s = Spec.bool_write sw s true true
   /\ Switch.turn_off sw s = Spec.bool_write sw s false false)
  /\ (fst (Switch.turn_on sw s) = Ok ()
      /\ pending (snd (Switch.turn_on sw s))
         = pending s ++ [set_value key (VBool true)]
      /\ stored (snd (Switch.turn_on sw s)) key
         = Some (default (VBool true) (stored s key)))
  /\ (fst (Switch.turn_off sw s) = Ok ()
      /\ pending (snd (Switch.turn_off sw s))
         = pending s ++ [set_value key (VBool false)]
      /\ stored (snd (Switch.turn_off sw s)) key
         = Some (default (VBool false) (stored s key))).
Proof.
  intros Hs Hm key.
  rewrite (turn_on_bool sw s Hs Hm), (turn_off_bool sw s Hs Hm).
  split; [done|].
  unfold Spec.bool_write, stored; simpl. fold key.
  rewrite !get_or_create_lookup; simpl. rewrite !get_or_create_value.
  done.
Qed.

Lemma turn_on_off_write_literal_boolean_witness :
  Switch.setter (Switch._mapping Sample.bool_switch) = None
  /\ bytes_truthy (Switch.bitmap_mask (Switch._mapping Sample.bool_switch)) = false
  /\ pending (snd (Switch.turn_on Sample.bool_switch (Sample.session_with [])))
     = [set_value 78 (VBool true)]
  /\ pending (snd (Switch.turn_off Sample.bool_switch (Sample.session_with [])))
     = [set_value 78 (VBool false)].
Proof.
  split; [reflexivity|]. split; [reflexivity|].
  pose proof (turn_on_off_write_literal_boolean Sample.bool_switch
                (Sample.session_with []) eq_refl eq_refl) as H.
  simpl in H. destruct H as (_ & (_ & Hon & _) & (_ & Hoff & _)).
  split; [exact Hon|exact Hoff].
Defined.

End BoolSwitch.

(** ** The program-repeat field of a fingerbot *)

Section ProgramRepeat.

Lemma repeat_forever_header : int_to_bytes_big 0xFFFF 2 = [xff; xff].
Proof. reflexivity. Qed.

Lemma repeat_forever_decodes (rest : bytes) :
  int_from_bytes_big (slice ([xff; xff] ++ rest) 0 2) = 0xFFFF.
Proof. reflexivity. Qed.

(** The getter decodes the first two bytes of the stored program. *)
Lemma repeat_forever_getter_reads (s : session) (product : TuyaBLEProductInfo)
    (fb : TuyaBLEFingerbotInfo) (w : bytes) :
  fingerbot product = Some fb ->
  program fb ≠ 0 ->
  stored s (program fb) = Some (VBytes w) ->
  Switch.get_fingerbot_program_repeat_forever s product
  = Some (int_from_bytes_big (slice w 0 2) =? 0xFFFF).
Proof.
  intros Hf Hp Hs.
  unfold Switch.get_fingerbot_program_repeat_forever, getitem.
  rewrite Hf, (proj2 (Z.eqb_neq _ _) Hp); simpl.
  unfold stored in Hs.
  destruct (datapoints (device s) !! program fb) as [dp|]; [|done].
  simpl in Hs. injection Hs as ->. done.
Qed.

Variables (s : session) (product : TuyaBLEProductInfo).
Variables (fb : TuyaBLEFingerbotInfo) (dp : TuyaBLEDataPoint) (bs : bytes).

Hypothesis Hfingerbot : fingerbot product = Some fb.
Hypothesis Hprogram : program fb ≠ 0.
Hypothesis Hlookup : datapoints (device s) !! program fb = Some dp.
Hypothesis Hvalue : value dp = VBytes bs.

Lemma set_repeat_forever_eq (v : bool) :
  Switch.set_fingerbot_program_repeat_forever s product v
  = create_task
      (set_value (program fb)
         (VBytes (int_to_bytes_big (if v then 0xFFFF else 1) 2 ++ skipn 2 bs))) s.
Proof.
  unfold Switch.set_fingerbot_program_repeat_forever, getitem.
  rewrite Hfingerbot, Hlookup, Hvalue.
  by rewrite (proj2 (Z.eqb_neq _ _) Hprogram).
Qed.

(** C5.  For a fingerbot product whose program datapoint id is configured
    (non-zero) and whose program datapoint holds a [bytes] value, the
    setter called with [True] schedules one write to that datapoint; the
    value written starts with the two bytes [FF FF] (the big-endian
    [0xFFFF]) and agrees with the old value from offset 2 on; and once the
    loop has run the write, the getter reads [True]. *)
Theorem set_repeat_forever_then_get :
  let s1 := Switch.set_fingerbot_program_repeat_forever s product true in
  let written := [xff; xff] ++ skipn 2 bs in
  pending s1 = pending s ++ [set_value (program fb) (VBytes written)]
  /\ firstn 2 written = [xff; xff]
  /\ int_from_bytes_big (firstn 2 written) = 0xFFFF
  /\ skipn 2 written = skipn 2 bs
  /\ stored (run_tasks s1) (program fb) = Some (VBytes written)
  /\ Switch.get_fingerbot_program_repeat_forever (run_tasks s1) product = Some true.
Proof.
  intros s1 written. subst s1.
  rewrite set_repeat_forever_eq, repeat_forever_header. fold written.
  assert (Hstored : stored (run_tasks (create_task (set_value (program fb) (VBytes written)) s))
                      (program fb) = Some (VBytes written)).
  { eapply stored_run_tasks_last; [|apply pending_create_task].
    simpl. rewrite Hlookup. eauto. }
  repeat split; try done.
  by rewrite (repeat_forever_getter_reads _ _ _ _ Hfingerbot Hprogram Hstored).
Qed.

End ProgramRepeat.

Lemma set_repeat_forever_then_get_witness :
  let s := Sample.session_with
             [Sample.datapoint 121 DT_RAW (VBytes [x00; x03; x01; x02; x03])] in
  let s1 := Switch.set_fingerbot_program_repeat_forever s Sample.fingerbot_product true in
  pending s1 = [set_value 121 (VBytes [xff; xff; x01; x02; x03])]
  /\ Switch.get_fingerbot_program_repeat_forever s Sample.fingerbot_product = Some false
  /\ Switch.get_fingerbot_program_repeat_forever (run_tasks s1) Sample.fingerbot_product
     = Some true.
Proof.
  intros s s1.
  pose proof (set_repeat_forever_then_get s Sample.fingerbot_product
                Sample.fingerbot_info
                (Sample.datapoint 121 DT_RAW (VBytes [x00; x03; x01; x02; x03]))
                [x00; x03; x01; x02; x03]
                eq_refl ltac:(discriminate) eq_refl eq_refl) as H.
  simpl in H. destruct H as (Hp & _ & _ & _ & _ & Hg).
  split; [exact Hp|]. split; [reflexivity|exact Hg].
Defined.

(** ** Octets and bitwise operations *)

Section Octets.

Lemma int_of_byte_range (b : byte) : 0 ≤ int_of_byte b < 256.
Proof.
  unfold int_of_byte. pose proof (Byte.to_N_bounded b). lia.
Qed.

(** An integer is in [range(256)] exactly when it is non-negative and has
    no bit set from position 8 on. *)
Lemma octet_bits (x : Z) :
  0 ≤ x < 256 <-> 0 ≤ x /\ forall j, 8 ≤ j -> Z.testbit x j = false.
Proof.
  split.
  - intros Hx. split; [lia|]. intros j Hj.
    rewrite <- (Z.mod_small x (2 ^ 8)) by lia.
    apply Z.mod_pow2_bits_high. lia.
  - intros [H0 Hbits]. split; [done|].
    assert (Heq : x = x mod 2 ^ 8).
    { apply Z.bits_inj'. intros j Hj.
      destruct (Z_lt_le_dec j 8) as [Hlt|Hge].
      - by rewrite Z.mod_pow2_bits_low.
      - rewrite Z.mod_pow2_bits_high by lia. by apply Hbits. }
    rewrite Heq. apply Z.mod_pos_bound. lia.
Qed.

Lemma lor_octet (v m : Z) :
  0 ≤ v < 256 -> 0 ≤ m < 256 -> 0 ≤ Z.lor v m < 256.
Proof.
  intros [Hv Hvb]%octet_bits [Hm Hmb]%octet_bits. apply octet_bits. split.
  - by apply Z.lor_nonneg.
  - intros j Hj. by rewrite Z.lor_spec, Hvb, Hmb.
Qed.

Lemma land_lnot_octet (v m : Z) :
  0 ≤ v < 256 -> 0 ≤ Z.land v (Z.lnot m) < 256.
Proof.
  intros [Hv Hvb]%octet_bits. apply octet_bits. split.
  - apply Z.land_nonneg. by left.
  - intros j Hj. by rewrite Z.land_spec, Hvb.
Qed.

Lemma lor_bits (v m j : Z) :
  Z.testbit (Z.lor v m) j = Z.testbit v j || Z.testbit m j.
Proof. apply Z.lor_spec. Qed.

Lemma land_lnot_bits (v m j : Z) :
  Z.testbit (Z.land v (Z.lnot m)) j = Z.testbit v j && negb (Z.testbit m j).
Proof.
  destruct (Z_lt_le_dec j 0) as [Hneg|Hpos].
  - by rewrite !(Z.testbit_neg_r _ j Hneg).
  - by rewrite Z.land_spec, Z.lnot_spec.
Qed.

Lemma byte_of_int_octet (z : Z) :
  0 ≤ z < 256 -> exists b, byte_of_int z = Ok b /\ int_of_byte b = z.
Proof.
  intros Hz. unfold byte_of_int.
  replace ((0 <=? z) && (z <? 256)) with true
    by (symmetry; apply andb_true_iff; split; [apply Z.leb_le|apply Z.ltb_lt]; lia).
  destruct (Byte.of_N (Z.to_N z)) as [b|] eqn:Hb.
  - exists b. split; [done|]. apply Byte.to_of_N in Hb.
    unfold int_of_byte. rewrite Hb. lia.
  - apply Byte.of_N_None_iff in Hb. lia.
Qed.

Lemma byte_of_int_raises (z : Z) (e : exn) :
  byte_of_int z = Raise e -> e = ValueError.
Proof.
  unfold byte_of_int.
  destruct ((0 <=? z) && (z <? 256)); [destruct (Byte.of_N _)|]; congruence.
Qed.

Variable f : Z -> Z -> Z.
Hypothesis f_octet : forall v m, 0 ≤ v < 256 -> 0 ≤ m < 256 -> 0 ≤ f v m < 256.

(** On byte strings of equal length, [bytes(f(v, m) for (v, m) in zip(value,
    mask, strict=True))] succeeds and is the bytewise [f]. *)
Lemma bytes_of_zip_same_length (bs mask : bytes) :
  length bs = length mask ->
  exists w, bytes_of_iter (gen (fun '(v, m) => f v m)
                             (zip_strict (ints bs) (ints mask))) = Ok w
            /\ ints w = zip_with f (ints bs) (ints mask).
Proof.
  revert mask; induction bs as [|b bs IH]; intros [|m mask] Hlen;
    simpl in Hlen; try discriminate.
  - by exists [].
  - destruct (IH mask) as (w & Hw & Hints); [lia|].
    destruct (byte_of_int_octet (f (int_of_byte b) (int_of_byte m))) as (c & Hc & Hci).
    { apply f_octet; apply int_of_byte_range. }
    exists (c :: w). simpl. rewrite Hc; simpl.
    rewrite Hw; simpl. split; [done|].
    by rewrite Hci, Hints.
Qed.

End Octets.

(** On byte strings of different lengths the same expression raises
    [ValueError], whatever [f] is. *)
Lemma bytes_of_zip_length_mismatch {A B : Type} (f : A * B -> Z)
    (xs : list A) (ys : list B) :
  length xs ≠ length ys ->
  bytes_of_iter (gen f (zip_strict xs ys)) = Raise ValueError.
Proof.
  revert ys; induction xs as [|x xs IH]; intros [|y ys] Hlen; simpl in *;
    try done.
  destruct (byte_of_int (f (x, y))) as [b|e] eqn:Hb; simpl.
  - rewrite IH by lia. done.
  - by rewrite (byte_of_int_raises _ _ Hb).
Qed.

(** ** Switches on a bitmap mask *)

Section Bitmap.

(** The loop of [is_on] over [zip(value, mask, strict=True)]: true at the
    first masked byte that is non-zero; with no such byte among the pairs,
    false when the lengths agree and [ValueError] when they do not. *)
Lemma any_masked_zip_strict (xs ys : list Z) :
  Switch.any_masked (zip_strict xs ys)
  = if existsb Spec.masked (zip xs ys) then Ok (Some true)
    else if decide (length xs = length ys) then Ok (Some false)
    else Raise ValueError.
Proof.
  revert ys; induction xs as [|x xs IH]; intros [|y ys]; simpl; try done.
  rewrite IH. unfold Spec.masked; simpl.
  destruct (negb (Z.land x y =? 0)); simpl; [done|].
  destruct (existsb _ _); [done|].
  repeat case_decide; first [done | lia].
Qed.

Variable sw : Switch.TuyaBLESwitch.
Variable mask : bytes.

Let key : Z := Switch.dp_id (Switch._mapping sw).

Hypothesis Hmask : Switch.bitmap_mask (Switch._mapping sw) = Some mask.
Hypothesis Htruthy : bytes_truthy (Switch.bitmap_mask (Switch._mapping sw)) = true.

Section Write.

Hypothesis Hsetter : Switch.setter (Switch._mapping sw) = None.

Variables (s : session) (dp : TuyaBLEDataPoint) (bs : bytes).
Hypothesis Hlookup : datapoints (device s) !! key = Some dp.
Hypothesis Hvalue : value dp = VBytes bs.

(** With the datapoint present, [turn_on] and [turn_off] come down to the
    generator expression over the stored bytes and the mask. *)
Lemma turn_on_bitmap_eq :
  Switch.turn_on sw s
  = match bytes_of_iter (gen (fun '(v, m) => Z.lor v m)
                           (zip_strict (ints bs) (ints mask))) with
    | Ok new_value => (Ok (), create_task (set_value key (VBytes new_value)) s)
    | Raise e => (Raise e, s)
    end.
Proof.
  unfold Switch.turn_on. rewrite Hsetter, Htruthy, Hmask; simpl. fold key.
  rewrite (get_or_create_present _ _ _ _ _ Hlookup), set_datapoints_same, Hvalue.
  done.
Qed.

Lemma turn_off_bitmap_eq :
  Switch.turn_off sw s
  = match bytes_of_iter (gen (fun '(v, m) => Z.land v (Z.lnot m))
                           (zip_strict (ints bs) (ints mask))) with
    | Ok new_value => (Ok (), create_task (set_value key (VBytes new_value)) s)
    | Raise e => (Raise e, s)
    end.
Proof.
  unfold Switch.turn_off. rewrite Hsetter, Htruthy, Hmask; simpl. fold key.
  rewrite (get_or_create_present _ _ _ _ _ Hlookup), set_datapoints_same, Hvalue.
  done.
Qed.

Lemma turn_on_bitmap :
  length bs = length mask ->
  exists w, Switch.turn_on sw s
            = (Ok (), create_task (set_value key (VBytes w)) s)
            /\ ints w = zip_with Z.lor (ints bs) (ints mask).
Proof.
  intros Hlen. rewrite turn_on_bitmap_eq.
  destruct (bytes_of_zip_same_length Z.lor lor_octet bs mask Hlen) as (w & -> & Hw).
  by exists w.
Qed.

Lemma turn_off_bitmap :
  length bs = length mask ->
  exists w, Switch.turn_off sw s
            = (Ok (), create_task (set_value key (VBytes w)) s)
            /\ ints w = zip_with (fun v m => Z.land v (Z.lnot m)) (ints bs) (ints mask).
Proof.
  intros Hlen. rewrite turn_off_bitmap_eq.
  destruct (bytes_of_zip_same_length (fun v m => Z.land v (Z.lnot m))
              (fun v m Hv _ => land_lnot_octet v m Hv) bs mask Hlen) as (w & -> & Hw).
  by exists w.
Qed.

Lemma turn_on_bitmap_mismatch :
  length bs ≠ length mask -> Switch.turn_on sw s = (Raise ValueError, s).
Proof.
  intros Hlen. rewrite turn_on_bitmap_eq, bytes_of_zip_length_mismatch; [done|].
  unfold ints. by rewrite !length_map.
Qed.

Lemma turn_off_bitmap_mismatch :
  length bs ≠ length mask -> Switch.turn_off sw s = (Raise ValueError, s).
Proof.
  intros Hlen. rewrite turn_off_bitmap_eq, bytes_of_zip_length_mismatch; [done|].
  unfold ints. by rewrite !length_map.
Qed.

End Write.

Lemma is_on_bitmap_eq (s : session) (dp : TuyaBLEDataPoint) (bs : bytes) :
  Switch.getter (Switch._mapping sw) = None ->
  datapoints (device s) !! key = Some dp ->
  Switch.raw_or_bitmap (type dp) = true ->
  value dp = VBytes bs ->
  Switch.is_on sw s
  = if existsb Spec.masked (zip (ints bs) (ints mask)) then Ok (Some true)
    else if decide (length bs = length mask) then Ok (Some false)
    else Raise ValueError.
Proof.
  intros Hg Hl Ht Hv. unfold Switch.is_on, getitem. fold key.
  rewrite Hg, Hl, Ht, Htruthy, Hv, Hmask; simpl.
  rewrite any_masked_zip_strict. unfold ints. by rewrite !length_map.
Qed.

End Bitmap.

Section BitmapRoundTrip.

Variable sw : Switch.TuyaBLESwitch.
Variables (mask bs : bytes) (s : session) (dp : TuyaBLEDataPoint).

Let key : Z := Switch.dp_id (Switch._mapping sw).

Hypothesis Hsetter : Switch.setter (Switch._mapping sw) = None.
Hypothesis Hmask : Switch.bitmap_mask (Switch._mapping sw) = Some mask.
Hypothesis Htruthy : bytes_truthy (Switch.bitmap_mask (Switch._mapping sw)) = true.
Hypothesis Hlookup : datapoints (device s) !! key = Some dp.
Hypothesis Hvalue : value dp = VBytes bs.
Hypothesis Hlen : length bs = length mask.

Lemma ints_length (w : bytes) : length (ints w) = length w.
Proof. apply length_map. Qed.

(** C4, amended.  For a switch with no setter and a non-empty bitmap mask,
    whose datapoint holds a [bytes] value as long as the mask:
    [turn_on] schedules a write of the bytewise [value | mask] and
    [turn_off] a write of the bytewise [value & ~mask]; neither raises nor
    touches the store.  Bit by bit, the byte [turn_on] writes has the mask's
    bits set and every other bit as in the value, and the byte [turn_off]
    writes has the mask's bits cleared and every other bit as in the value.
    After [turn_on] and the completion of its write, [turn_off] schedules a
    write in which every bit outside the mask is the original one and every
    masked bit is cleared. *)
Theorem bitmap_turn_on_then_off :
  let s1 := run_tasks (snd (Switch.turn_on sw s)) in
  exists w_on w_off w_back : bytes,
    (Switch.turn_on sw s = (Ok (), create_task (set_value key (VBytes w_on)) s)
     /\ ints w_on = zip_with Z.lor (ints bs) (ints mask))
    /\ (Switch.turn_off sw s = (Ok (), create_task (set_value key (VBytes w_off)) s)
        /\ ints w_off
           = zip_with (fun v m => Z.land v (Z.lnot m)) (ints bs) (ints mask))
    /\ (stored s1 key = Some (VBytes w_on)
        /\ Switch.turn_off sw s1
           = (Ok (), create_task (set_value key (VBytes w_back)) s1))
    /\ (length w_on = length bs /\ length w_off = length bs
        /\ length w_back = length bs)
    /\ forall (i : nat) (v m : Z),
         ints bs !! i = Some v -> ints mask !! i = Some m ->
         exists on off back : Z,
           ints w_on !! i = Some on /\ ints w_off !! i = Some off
           /\ ints w_back !! i = Some back
           /\ forall j : Z,
                Z.testbit on j = Z.testbit v j || Z.testbit m j
                /\ Z.testbit off j = Z.testbit v j && negb (Z.testbit m j)
                /\ Z.testbit back j = Z.testbit v j && negb (Z.testbit m j).
Proof.
  intros s1.
  destruct (turn_on_bitmap sw mask Hmask Htruthy Hsetter s dp bs Hlookup Hvalue Hlen)
    as (w_on & Hon & Hion).
  destruct (turn_off_bitmap sw mask Hmask Htruthy Hsetter s dp bs Hlookup Hvalue Hlen)
    as (w_off & Hoff & Hioff).
  assert (Hlon : length w_on = length bs).
  { rewrite <- (ints_length w_on), Hion, length_zip_with, !ints_length. lia. }
  assert (Hloff : length w_off = length bs).
  { rewrite <- (ints_length w_off), Hioff, length_zip_with, !ints_length. lia. }
  assert (Hs1 : stored s1 key = Some (VBytes w_on)).
  { subst s1. rewrite Hon; simpl.
    eapply stored_run_tasks_last; [|apply pending_create_task].
    simpl. fold key. rewrite Hlookup. eauto. }
  pose proof Hs1 as Hs1'. unfold stored in Hs1'.
  apply fmap_Some in Hs1' as (dp1 & Hlookup1 & Hvalue1).
  destruct (turn_off_bitmap sw mask Hmask Htruthy Hsetter s1 dp1 w_on Hlookup1
              (eq_sym Hvalue1) ltac:(lia)) as (w_back & Hback & Hiback).
  assert (Hlback : length w_back = length bs).
  { rewrite <- (ints_length w_back), Hiback, length_zip_with, !ints_length. lia. }
  exists w_on, w_off, w_back.
  split; [done|]. split; [done|]. split; [done|]. split; [done|].
  intros i v m Hv Hm.
  exists (Z.lor v m), (Z.land v (Z.lnot m)), (Z.land (Z.lor v m) (Z.lnot m)).
  rewrite Hiback, Hion, Hioff, !lookup_zip_with, Hv, Hm; simpl.
  repeat split; try done.
  - apply lor_bits.
  - apply land_lnot_bits.
  - rewrite land_lnot_bits, lor_bits.
    by destruct (Z.testbit v j), (Z.testbit m j).
Qed.

End BitmapRoundTrip.

Lemma bitmap_turn_on_then_off_witness :
  let s := Sample.session_with
             [Sample.datapoint 20 DT_BITMAP (VBytes [x06; x81])] in
  Switch.turn_on Sample.bitmap_switch s
  = (Ok (), create_task (set_value 20 (VBytes [x07; x81])) s)
  /\ Switch.turn_off Sample.bitmap_switch s
     = (Ok (), create_task (set_value 20 (VBytes [x06; x01])) s)
  /\ exists w_on w_off w_back : bytes,
       Switch.turn_on Sample.bitmap_switch s
       = (Ok (), create_task (set_value 20 (VBytes w_on)) s)
       /\ ints w_on = zip_with Z.lor (ints [x06; x81]) (ints [x01; x80]).
Proof.
  intros s.
  split; [reflexivity|]. split; [reflexivity|].
  destruct (bitmap_turn_on_then_off Sample.bitmap_switch [x01; x80] [x06; x81] s
              (Sample.datapoint 20 DT_BITMAP (VBytes [x06; x81]))
              eq_refl eq_refl eq_refl eq_refl eq_refl eq_refl)
    as (w_on & w_off & w_back & Hon & _).
  exists w_on, w_off, w_back. exact Hon.
Defined.

(** C4, as stated, fails for two kinds of switch with a bitmap mask.  When
    the mapping also carries a setter, [turn_on] and [turn_off] hand over to
    the setter and the mask is not used: here nothing is written.  When the
    mask is the empty [bytes] object it is falsy, and the switch writes the
    booleans [True] and [False] as if it had no mask. *)
Lemma bitmap_mask_bypassed_counterexample :
  let s := Sample.session_with
             [Sample.datapoint 20 DT_BITMAP (VBytes [x06; x81])] in
  let s' := Sample.session_with [Sample.datapoint 20 DT_BITMAP (VBytes [])] in
  (pending (snd (Switch.turn_on Sample.bitmap_setter_switch s)) = []
   /\ ~ Spec.bitmap_writes Sample.bitmap_setter_switch s [x06; x81] [x01; x80])
  /\ (pending (snd (Switch.turn_on Sample.empty_mask_switch s'))
      = [set_value 20 (VBool true)]
      /\ ~ Spec.bitmap_writes Sample.empty_mask_switch s' [] []).
Proof.
  intros s s'. split; (split; [reflexivity|]).
  - intros (w_on & w_off & Hon & _).
    apply (f_equal (fun r => pending (snd r))) in Hon. discriminate Hon.
  - intros (w_on & w_off & Hon & Hw & _).
    destruct w_on; [|discriminate Hw].
    apply (f_equal (fun r => pending (snd r))) in Hon. discriminate Hon.
Qed.

(** ** A mask and a value of different lengths *)

Section LengthMismatch.

(** C2, as stated, fails: with the mask [01 80] and the one-byte value [00]
    in a bitmap datapoint, [is_on], [turn_on] and [turn_off] all raise
    [ValueError]; with the one-byte value [01], [is_on] returns [True].
    The mask is also out of play, whatever the lengths, when it is the
    empty [bytes] object (the value is then read and written as a boolean)
    and, for [is_on], when the mapping carries a getter. *)
Lemma length_mismatch_raises_counterexample :
  let s := Sample.session_with [Sample.datapoint 20 DT_BITMAP (VBytes [x00])] in
  let s' := Sample.session_with [Sample.datapoint 20 DT_BITMAP (VBytes [x01])] in
  (Switch.is_on Sample.bitmap_switch s = Raise ValueError
   /\ Switch.turn_on Sample.bitmap_switch s = (Raise ValueError, s)
   /\ Switch.turn_off Sample.bitmap_switch s = (Raise ValueError, s)
   /\ ~ Spec.mismatch_degrades Sample.bitmap_switch s)
  /\ (Switch.is_on Sample.bitmap_switch s' = Ok (Some true)
      /\ ~ Spec.mismatch_degrades Sample.bitmap_switch s')
  /\ (Switch.is_on Sample.empty_mask_switch s = Ok (Some true)
      /\ pending (snd (Switch.turn_on Sample.empty_mask_switch s))
         = [set_value 20 (VBool true)]
      /\ ~ Spec.mismatch_degrades Sample.empty_mask_switch s)
  /\ (Switch.is_on Sample.bitmap_getter_switch s = Ok None
      /\ ~ Spec.mismatch_degrades Sample.bitmap_getter_switch s).
Proof.
  intros s s'.
  assert (H1 : Switch.is_on Sample.bitmap_switch s = Raise ValueError) by reflexivity.
  assert (H2 : Switch.is_on Sample.bitmap_switch s' = Ok (Some true)) by reflexivity.
  assert (H3 : Switch.is_on Sample.empty_mask_switch s = Ok (Some true)) by reflexivity.
  assert (H4 : Switch.is_on Sample.bitmap_getter_switch s = Ok None) by reflexivity.
  repeat split; try reflexivity.
  - intros [H _]. rewrite H1 in H. discriminate H.
  - intros [H _]. rewrite H2 in H. discriminate H.
  - intros [H _]. rewrite H3 in H. discriminate H.
  - intros [H _]. rewrite H4 in H. discriminate H.
Qed.

(** C2, amended.  For a switch with a (non-empty) bitmap mask whose
    datapoint is present, of raw or bitmap type, and holds a [bytes] value
    whose length differs from the mask's: without a getter, [is_on] returns
    [True] when some byte of the value has a bit in common with the mask
    byte at the same position, and raises [ValueError] otherwise, so it
    never returns [False]; without a setter, [turn_on] and [turn_off] raise
    [ValueError], schedule no write and leave the session as it was. *)
Theorem length_mismatch_raises_value_error
    (sw : Switch.TuyaBLESwitch) (mask bs : bytes) (s : session)
    (dp : TuyaBLEDataPoint) :
  Switch.bitmap_mask (Switch._mapping sw) = Some mask ->
  bytes_truthy (Switch.bitmap_mask (Switch._mapping sw)) = true ->
  datapoints (device s) !! Switch.dp_id (Switch._mapping sw) = Some dp ->
  Switch.raw_or_bitmap (type dp) = true ->
  value dp = VBytes bs ->
  length bs ≠ length mask ->
  (Switch.getter (Switch._mapping sw) = None ->
     Switch.is_on sw s
     = (if existsb Spec.masked (zip (ints bs) (ints mask))
        then Ok (Some true) else Raise ValueError)
     /\ Switch.is_on sw s ≠ Ok (Some false))
  /\ (Switch.setter (Switch._mapping sw) = None ->
        Switch.turn_on sw s = (Raise ValueError, s)
        /\ Switch.turn_off sw s = (Raise ValueError, s)).
Proof.
  intros Hmask Htruthy Hlookup Htype Hvalue Hlen. split.
  - intros Hgetter.
    rewrite (is_on_bitmap_eq sw mask Hmask Htruthy s dp bs Hgetter Hlookup Htype Hvalue).
    rewrite decide_False by done.
    split; [done|]. by destruct (existsb _ _).
  - intros Hsetter. split.
    + by apply (turn_on_bitmap_mismatch sw mask Hmask Htruthy Hsetter s dp bs).
    + by apply (turn_off_bitmap_mismatch sw mask Hmask Htruthy Hsetter s dp bs).
Qed.

Lemma length_mismatch_raises_value_error_witness :
  let s := Sample.session_with [Sample.datapoint 20 DT_BITMAP (VBytes [x00])] in
  length [x00] ≠ length [x01; x80]
  /\ Switch.is_on Sample.bitmap_switch s = Raise ValueError
  /\ Switch.turn_on Sample.bitmap_switch s = (Raise ValueError, s)
  /\ Switch.turn_off Sample.bitmap_switch s = (Raise ValueError, s).
Proof.
  intros s.
  assert (Hlen : length [x00] ≠ length [x01; x80]) by (simpl; lia).
  split; [exact Hlen|].
  destruct (length_mismatch_raises_value_error Sample.bitmap_switch
              [x01; x80] [x00] s
              (Sample.datapoint 20 DT_BITMAP (VBytes [x00]))
              eq_refl eq_refl eq_refl eq_refl eq_refl Hlen) as [Hread Hwrite].
  destruct (Hread eq_refl) as [Hon _].
  destruct (Hwrite eq_refl) as [Hton Htoff].
  split; [exact Hon|]. split; [exact Hton|exact Htoff].
Defined.

End LengthMismatch.

(** ** The connection coordinator *)

Section Debounce.

Variable SET_DISCONNECTED_DELAY : Z.

Local Abbreviation step := (Devices.step SET_DISCONNECTED_DELAY).
Local Abbreviation run := (Devices.run SET_DISCONNECTED_DELAY).

Lemma new_session_quiet (d : TuyaBLEDevice) : quiet (new_session d).
Proof. by split. Qed.

Lemma connect_quiet (s : session) : quiet s -> quiet (_async_handle_connect s).
Proof.
  intros [Hu Ht]. unfold _async_handle_connect. rewrite Hu.
  destruct (_disconnected (coordinator s)); by split.
Qed.

Lemma connect_connected (s : session) :
  quiet s -> connected (coordinator (_async_handle_connect s)) = true.
Proof.
  intros [Hu Ht]. unfold _async_handle_connect, connected. rewrite Hu.
  by destruct (_disconnected (coordinator s)) eqn:Hd; simpl; [|rewrite Hd].
Qed.

(** No handler arms a timer, so a quiet session stays quiet, and with no
    timer to fire [_set_disconnected] never runs: the coordinator of a
    quiet session stays as it is through a disconnect callback and through
    any lapse of time. *)
Lemma step_quiet (s : session) (e : event) : quiet s -> quiet (step s e).
Proof.
  intros Hq. destruct e; simpl.
  - by apply connect_quiet.
  - by apply connect_quiet.
  - unfold _async_handle_disconnect. by destruct (_unsub_disconnect _).
  - destruct Hq as [Hu Ht]. unfold elapse. rewrite Ht. by split.
Qed.

Lemma step_stays_connected (s : session) (e : event) :
  quiet s ->
  connected (coordinator s) = true ->
  connected (coordinator (step s e)) = true.
Proof.
  intros Hq Hc. destruct e; simpl.
  - by apply connect_connected.
  - by apply connect_connected.
  - unfold _async_handle_disconnect. by destruct (_unsub_disconnect _).
  - destruct Hq as [Hu Ht]. unfold elapse. by rewrite Ht.
Qed.

Lemma run_quiet (es : list event) (s : session) : quiet s -> quiet (run s es).
Proof.
  revert s; induction es as [|e es IH]; intros s Hq; simpl; [done|].
  by apply IH, step_quiet.
Qed.

Lemma run_stays_connected (es : list event) (s : session) :
  quiet s ->
  connected (coordinator s) = true ->
  connected (coordinator (run s es)) = true.
Proof.
  revert s; induction es as [|e es IH]; intros s Hq Hc; simpl; [done|].
  apply IH; [by apply step_quiet|by apply step_stays_connected].
Qed.

(** C1.  What the code does: once a new coordinator has received a
    connected callback, [connected] is true after every further sequence of
    callbacks and lapses of time.  So it is true between a disconnected
    callback and a reconnect, as the claim says; and it is also still true
    when a disconnected callback is followed by nothing but time, however
    long, where the claim has it turn false once the delay has elapsed. *)
Theorem connected_never_turns_false
    (d : TuyaBLEDevice) (before after : list event) :
  connected
    (coordinator (run (new_session d) (before ++ Connected :: after)))
  = true.
Proof.
  unfold Devices.run. rewrite fold_left_app; simpl.
  apply run_stays_connected.
  - apply connect_quiet, run_quiet, new_session_quiet.
  - apply connect_connected, run_quiet, new_session_quiet.
Qed.

End Debounce.

(** The trace on which the code and C1 part: connect, disconnect, then the
    whole delay (here 600 units) and more goes by. *)
Example disconnect_then_delay_still_connected :
  map (fun es => connected (coordinator (run 600 (Sample.session_with []) es)))
    [ [Connected];
      [Connected; Disconnected];
      [Connected; Disconnected; Elapse 599];
      [Connected; Disconnected; Elapse 600];
      [Connected; Disconnected; Elapse 600; Elapse 6000] ]
  = [true; true; true; true; true].
Proof. reflexivity. Qed.

(** * Further properties of the code *)

(** ** Strings *)

Section Strings.

Local Open Scope nat_scope.

Lemma split_not_nil (sep : ascii) (s : string) : split sep s ≠ [].
Proof.
  induction s as [|c s IH]; simpl; [done|].
  destruct (Ascii.eqb c sep); [done|]. by destruct (split sep s).
Qed.

Lemma length_split (sep : ascii) (s : string) :
  length (split sep s) = S (count sep s).
Proof.
  induction s as [|c s IH]; simpl; [done|].
  destruct (Ascii.eqb c sep); simpl; [by rewrite IH|].
  pose proof (split_not_nil sep s). destruct (split sep s); [done|].
  simpl in *. lia.
Qed.

Lemma split_no_sep (sep : ascii) (s : string) :
  count sep s = 0 -> split sep s = [s].
Proof.
  induction s as [|c s IH]; simpl; [done|].
  destruct (Ascii.eqb c sep); [done|]. intros H. by rewrite IH.
Qed.

(** The piece after the last separator is the last element. *)
Lemma split_snoc (sep : ascii) (u v : string) :
  count sep v = 0 ->
  split sep (u +:+ String sep v) = split sep u ++ [v].
Proof.
  intros Hv. induction u as [|c u IH]; simpl.
  - by rewrite Ascii.eqb_refl, split_no_sep.
  - destruct (Ascii.eqb c sep); [by rewrite IH|].
    rewrite IH. pose proof (split_not_nil sep u). by destruct (split sep u).
Qed.

(** A piece has only characters of the string that was split, and never
    the separator. *)
Lemma split_pieces_chars (P : ascii -> bool) (sep : ascii) (s piece : string) :
  In piece (split sep s) -> any_char P s = false -> any_char P piece = false.
Proof.
  revert piece; induction s as [|c s IH]; simpl; intros piece.
  - by intros [<-|[]].
  - intros Hin [Hc Hs]%orb_false_elim. destruct (Ascii.eqb c sep).
    + destruct Hin as [<-|Hin]; [done|by apply IH].
    + pose proof (split_not_nil sep s).
      destruct (split sep s) as [|h t] eqn:Heq; [done|].
      destruct Hin as [<-|Hin]; simpl.
      * rewrite Hc. apply IH; [by left|done].
      * apply IH; [by right|done].
Qed.

Lemma split_pieces_no_sep (sep : ascii) (s piece : string) :
  In piece (split sep s) -> contains sep piece = false.
Proof.
  unfold contains.
  revert piece; induction s as [|c s IH]; simpl; intros piece.
  - by intros [<-|[]].
  - destruct (Ascii.eqb c sep) eqn:Hc.
    + intros [<-|Hin]; [done|by apply IH].
    + pose proof (split_not_nil sep s).
      destruct (split sep s) as [|h t] eqn:Hs; [done|].
      intros [<-|Hin]; simpl.
      * rewrite Hc. apply IH. by left.
      * apply IH. by right.
Qed.

Lemma upper_app (u v : string) : upper (u +:+ v) = upper u +:+ upper v.
Proof. induction u as [|c u IH]; simpl; [done|by rewrite IH]. Qed.

Lemma replace_app (old new : ascii) (u v : string) :
  replace old new (u +:+ v) = replace old new u +:+ replace old new v.
Proof. induction u as [|c u IH]; simpl; [done|by rewrite IH]. Qed.

Lemma upper_char_idem (c : ascii) : upper_char (upper_char c) = upper_char c.
Proof. by destruct c as [[] [] [] [] [] [] [] []]. Qed.

Lemma upper_char_not_lower (c : ascii) : is_lower (upper_char c) = false.
Proof. by destruct c as [[] [] [] [] [] [] [] []]. Qed.

(** Upper-casing neither makes nor unmakes a [":"] or a ["-"]. *)
Lemma upper_char_colon (c : ascii) :
  Ascii.eqb (upper_char c) ":" = Ascii.eqb c ":".
Proof. by destruct c as [[] [] [] [] [] [] [] []]. Qed.

Lemma upper_char_dash (c : ascii) :
  Ascii.eqb (upper_char c) "-" = Ascii.eqb c "-".
Proof. by destruct c as [[] [] [] [] [] [] [] []]. Qed.

Lemma upper_idem (s : string) : upper (upper s) = upper s.
Proof.
  induction s as [|c s IH]; simpl; [done|]. by rewrite upper_char_idem, IH.
Qed.

Lemma upper_has_lower (s : string) : has_lower (upper s) = false.
Proof.
  unfold has_lower.
  induction s as [|c s IH]; simpl; [done|]. by rewrite upper_char_not_lower, IH.
Qed.

Lemma upper_replace (s : string) :
  upper (replace "-" ":" (upper s)) = upper (replace "-" ":" s).
Proof.
  induction s as [|c s IH]; simpl; [done|]. rewrite IH. f_equal.
  by destruct c as [[] [] [] [] [] [] [] []].
Qed.

Lemma replace_replace (s : string) :
  replace "-" ":" (replace "-" ":" s) = replace "-" ":" s.
Proof.
  induction s as [|c s IH]; simpl; [done|]. rewrite IH. f_equal.
  destruct (Ascii.eqb c "-") eqn:H; simpl; [done|]. by rewrite H.
Qed.

Lemma replace_back (s : string) :
  replace "-" ":" (replace ":" "-" s) = replace "-" ":" s.
Proof.
  induction s as [|c s IH]; simpl; [done|]. rewrite IH. f_equal.
  destruct (Ascii.eqb c ":") eqn:H; simpl.
  - apply Ascii.eqb_eq in H. by subst c.
  - done.
Qed.

Lemma count_normal (s : string) :
  count ":" (normal s) = count "-" s + count ":" s.
Proof.
  unfold normal. induction s as [|c s IH]; simpl; [done|]. rewrite IH.
  destruct (Ascii.eqb c "-") eqn:Hd; simpl.
  - apply Ascii.eqb_eq in Hd. by subst c.
  - rewrite upper_char_colon. lia.
Qed.

Lemma normal_app (u v : string) : normal (u +:+ v) = normal u +:+ normal v.
Proof. unfold normal. by rewrite replace_app, upper_app. Qed.

Lemma contains_count (c : ascii) (s : string) :
  contains c s = false <-> count c s = 0.
Proof.
  unfold contains. induction s as [|c' s IH]; simpl; [done|].
  destruct (Ascii.eqb c' c); simpl; [split; [done|lia]|done].
Qed.

Lemma any_char_app (P : ascii -> bool) (u v : string) :
  any_char P (u +:+ v) = any_char P u || any_char P v.
Proof.
  induction u as [|c' u IH]; simpl; [done|]. by rewrite IH, orb_assoc.
Qed.

Lemma length_drop_chars (n : nat) (s : string) :
  String.length (drop_chars n s) = String.length s - n.
Proof.
  revert s; induction n as [|n IH]; intros [|c s]; simpl; try done; lia.
Qed.

Lemma any_char_drop_chars (P : ascii -> bool) (n : nat) (s : string) :
  any_char P s = false -> any_char P (drop_chars n s) = false.
Proof.
  revert s; induction n as [|n IH]; intros [|c' s]; simpl; try done.
  intros [_ H]%orb_false_elim. by apply IH.
Qed.

Lemma length_last_chars (k : nat) (s : string) :
  String.length (last_chars k s) ≤ k.
Proof. unfold last_chars. rewrite length_drop_chars. lia. Qed.

Lemma last_chars_short (k : nat) (s : string) :
  String.length s ≤ k -> last_chars k s = s.
Proof.
  intros H. unfold last_chars.
  replace (String.length s - k) with 0 by lia. done.
Qed.

Lemma from_end_In {A : Type} (l : list A) (k : nat) (x : A) :
  from_end l k = Returns x -> In x l.
Proof.
  unfold from_end. destruct (k <=? length l); [|done].
  destruct (l !! (length l - k)) eqn:H; [|done].
  intros [= <-]. apply list_elem_of_In. by eapply list_elem_of_lookup_2.
Qed.

Lemma from_end_short {A : Type} (l : list A) (k : nat) :
  length l < k -> from_end l k = IndexError.
Proof.
  intros H. unfold from_end.
  by rewrite (proj2 (Nat.leb_gt _ _) H).
Qed.

Lemma from_end_long {A : Type} (l : list A) (k : nat) :
  1 ≤ k ≤ length l -> exists x, from_end l k = Returns x.
Proof.
  intros H. unfold from_end.
  rewrite (proj2 (Nat.leb_le _ _)) by lia.
  destruct (lookup_lt_is_Some_2 l (length l - k)) as [x ->]; [lia|]. eauto.
Qed.

Lemma from_end_app {A : Type} (l l' : list A) (k : nat) :
  1 ≤ k ≤ length l' -> from_end (l ++ l') k = from_end l' k.
Proof.
  intros H. unfold from_end. rewrite length_app.
  rewrite !(proj2 (Nat.leb_le _ _)) by lia.
  rewrite lookup_app_r by lia.
  by replace (length l + length l' - k - length l) with (length l' - k) by lia.
Qed.

Lemma from_end_last3 {A : Type} (l : list A) (x y z : A) :
  from_end (l ++ [x; y; z]) 3 = Returns x
  /\ from_end (l ++ [x; y; z]) 2 = Returns y
  /\ from_end (l ++ [x; y; z]) 1 = Returns z.
Proof.
  by rewrite !from_end_app by (simpl; lia).
Qed.

End Strings.

(** ** The short address *)

Section ShortAddress.

Local Open Scope nat_scope.

Lemma get_short_address_normal (a b : string) :
  normal a = normal b -> get_short_address a = get_short_address b.
Proof. unfold get_short_address, normal. by intros ->. Qed.

(** With three pieces or more the function returns, from the last three. *)
Lemma get_short_address_pieces (a : string) (l : list string) (x y z : string) :
  split ":" (normal a) = l ++ [x; y; z] ->
  get_short_address a = Returns (last_chars 6 (x +:+ y +:+ z)).
Proof.
  intros H. unfold get_short_address. fold (normal a). rewrite H.
  destruct (from_end_last3 l x y z) as (-> & -> & ->). done.
Qed.

Lemma split_three_pieces (s : string) :
  3 ≤ length (split ":" s) ->
  exists l x y z, split ":" s = l ++ [x; y; z].
Proof.
  generalize (split ":" s). intros pieces H.
  destruct pieces as [|z pieces _] using rev_ind; [simpl in H; lia|].
  destruct pieces as [|y pieces _] using rev_ind; [simpl in H; lia|].
  destruct pieces as [|x pieces _] using rev_ind; [simpl in H; lia|].
  exists pieces, x, y, z. by rewrite <- !app_assoc.
Qed.

(** X1.  [get_short_address] raises [IndexError] exactly when the address
    has fewer than two separators, counting [":"] and ["-"] together; with
    two or more it returns. *)
Theorem get_short_address_index_error (address : string) :
  get_short_address address = IndexError
  <-> count "-" address + count ":" address < 2.
Proof.
  pose proof (length_split ":" (normal address)) as Hlen.
  rewrite count_normal in Hlen. split.
  - intros Herr.
    destruct (Nat.lt_ge_cases (count "-" address + count ":" address) 2)
      as [Hlt|Hge]; [done|].
    destruct (split_three_pieces (normal address)) as (l & x & y & z & Hs); [lia|].
    by rewrite (get_short_address_pieces _ _ _ _ _ Hs) in Herr.
  - intros Hlt. unfold get_short_address. fold (normal address).
    by rewrite from_end_short by lia.
Qed.

(** X2.  Whatever [get_short_address] returns has at most six characters,
    none of which is a [":"], a ["-"] or a lower-case letter. *)
Theorem get_short_address_shape (address short : string) :
  get_short_address address = Returns short ->
  String.length short ≤ 6
  /\ contains ":" short = false
  /\ contains "-" short = false
  /\ has_lower short = false.
Proof.
  intros Hret.
  destruct (Nat.lt_ge_cases (count "-" address + count ":" address) 2)
    as [Hlt|Hge].
  { apply get_short_address_index_error in Hlt. congruence. }
  pose proof (length_split ":" (normal address)) as Hlen.
  rewrite count_normal in Hlen.
  destruct (split_three_pieces (normal address)) as (l & x & y & z & Hs); [lia|].
  rewrite (get_short_address_pieces _ _ _ _ _ Hs) in Hret.
  injection Hret as <-.
  assert (Hin : forall piece, In piece [x; y; z] ->
                  In piece (split ":" (normal address))).
  { intros piece Hp. rewrite Hs. apply in_or_app. by right. }
  assert (Hdash : any_char (fun c => Ascii.eqb c "-") (normal address) = false).
  { unfold normal. clear. induction address as [|c s IH]; simpl; [done|].
    rewrite IH, upper_char_dash.
    destruct (Ascii.eqb c "-") eqn:H; simpl; [done|by rewrite H]. }
  assert (Hlow : any_char is_lower (normal address) = false)
    by apply upper_has_lower.
  assert (Hcolon : forall piece, In piece [x; y; z] ->
                     any_char (fun c => Ascii.eqb c ":") piece = false).
  { intros piece Hp. apply (split_pieces_no_sep ":" (normal address)), Hin, Hp. }
  assert (Hpiece : forall P piece, In piece [x; y; z] ->
                     any_char P (normal address) = false ->
                     any_char P piece = false).
  { intros P piece Hp. apply (split_pieces_chars P ":"), Hin, Hp. }
  split; [apply length_last_chars|].
  unfold last_chars, contains, has_lower.
  repeat split; apply any_char_drop_chars; rewrite !any_char_app.
  - rewrite !Hcolon; [done|simpl; tauto..].
  - rewrite !(fun piece H => Hpiece _ piece H Hdash); [done|simpl; tauto..].
  - rewrite !(fun piece H => Hpiece _ piece H Hlow); [done|simpl; tauto..].
Qed.

Lemma get_short_address_shape_witness :
  get_short_address "dc:23:4e:8b:60:8f" = Returns "8B608F"
  /\ String.length "8B608F" ≤ 6
  /\ contains ":" "8B608F" = false.
Proof.
  split; [reflexivity|].
  destruct (get_short_address_shape "dc:23:4e:8b:60:8f" "8B608F" eq_refl)
    as (Hlen & Hcolon & _).
  split; [exact Hlen|exact Hcolon].
Defined.

(** X3.  The address is read without regard to the case of its letters or
    to which of the two separators it uses. *)
Theorem get_short_address_insensitive (address : string) :
  get_short_address (upper address) = get_short_address address
  /\ get_short_address (replace "-" ":" address) = get_short_address address
  /\ get_short_address (replace ":" "-" address) = get_short_address address.
Proof.
  repeat split; apply get_short_address_normal; unfold normal.
  - apply upper_replace.
  - by rewrite replace_replace.
  - by rewrite replace_back.
Qed.

End ShortAddress.

Section LastThreePieces.

Local Open Scope nat_scope.

Lemma str_app_cons (c : ascii) (s t : string) :
  String c s +:+ t = String c (s +:+ t).
Proof. reflexivity. Qed.

Lemma str_app_nil (t : string) : "" +:+ t = t.
Proof. reflexivity. Qed.

Lemma str_app_assoc (a b c : string) : (a +:+ b) +:+ c = a +:+ (b +:+ c).
Proof.
  induction a as [|ch a IH]; [done|]. by rewrite !str_app_cons, IH.
Qed.

(** In the ASCII model upper-casing keeps the length. *)
Lemma length_upper (s : string) : String.length (upper s) = String.length s.
Proof. induction s as [|c s IH]; simpl; [done|by rewrite IH]. Qed.

Lemma length_str_app (a b : string) :
  String.length (a +:+ b) = String.length a + String.length b.
Proof.
  induction a as [|c a IH]; [done|]. rewrite str_app_cons. simpl. by rewrite IH.
Qed.

Lemma normal_sep (c : ascii) (s : string) :
  is_sep c = true -> normal (String c s) = String ":" (normal s).
Proof.
  unfold is_sep, normal; simpl. intros H. f_equal.
  destruct (Ascii.eqb c "-") eqn:Hd; [done|].
  rewrite orb_false_r in H. apply Ascii.eqb_eq in H. by subst c.
Qed.

Lemma normal_no_sep (s : string) :
  contains "-" s = false -> normal s = upper s.
Proof.
  unfold contains, normal. induction s as [|c s IH]; simpl; [done|].
  intros [-> Hs]%orb_false_elim. by rewrite IH.
Qed.

Variables (pre x y z : string) (s2 s3 : ascii).

Hypothesis Hpre :
  pre = "" \/ exists p s1, is_sep s1 = true /\ pre = p +:+ String s1 "".
Hypothesis Hs2 : is_sep s2 = true.
Hypothesis Hs3 : is_sep s3 = true.
Hypothesis Hpieces :
  forall piece, In piece [x; y; z] ->
    contains ":" piece = false /\ contains "-" piece = false.

Lemma piece_normal (piece : string) :
  In piece [x; y; z] ->
  normal piece = upper piece /\ count ":" (upper piece) = 0.
Proof.
  intros Hin. destruct (Hpieces piece Hin) as [Hc Hd].
  rewrite <- (normal_no_sep piece Hd). split; [done|].
  rewrite count_normal.
  apply contains_count in Hc. apply contains_count in Hd. lia.
Qed.

(** X4.  When the address ends in three pieces [x], [y], [z] set apart by
    [":"] or ["-"] (and anything before them ends in a separator), the
    short address is made of the last six characters of [x], [y] and [z]
    joined and upper-cased.  When the three pieces are ASCII text of six
    characters or fewer together, as the three last octets of a MAC address
    are, it is all of them, upper-cased. *)
Theorem get_short_address_last_three :
  let address := pre +:+ x +:+ String s2 (y +:+ String s3 z) in
  get_short_address address = Returns (last_chars 6 (upper (x +:+ y +:+ z)))
  /\ (is_ascii (x +:+ y +:+ z) = true ->
      String.length x + String.length y + String.length z ≤ 6 ->
      get_short_address address = Returns (upper (x +:+ y +:+ z))).
Proof.
  intros address.
  destruct (piece_normal x) as [Hnx Hcx]; [simpl; tauto|].
  destruct (piece_normal y) as [Hny Hcy]; [simpl; tauto|].
  destruct (piece_normal z) as [Hnz Hcz]; [simpl; tauto|].
  assert (Hsplit : exists l, split ":" (normal address)
                             = l ++ [upper x; upper y; upper z]).
  { subst address.
    rewrite !normal_app, (normal_sep s2), normal_app, (normal_sep s3) by done.
    rewrite Hnx, Hny, Hnz.
    replace (normal pre +:+ upper x
             +:+ String ":" (upper y +:+ String ":" (upper z)))
      with (((normal pre +:+ upper x) +:+ String ":" (upper y))
            +:+ String ":" (upper z))
      by (by rewrite !str_app_assoc, !str_app_cons).
    rewrite split_snoc, split_snoc by done.
    destruct Hpre as [->|(p & s1 & Hs1 & ->)].
    - exists []. rewrite str_app_nil. by rewrite split_no_sep.
    - exists (split ":" (normal p)).
      rewrite normal_app, (normal_sep s1) by done.
      rewrite str_app_assoc, str_app_cons, str_app_nil.
      rewrite split_snoc by done. by rewrite <- !app_assoc. }
  destruct Hsplit as [l Hsplit].
  rewrite (get_short_address_pieces _ _ _ _ _ Hsplit), <- !upper_app.
  split; [done|]. intros _ Hlen.
  rewrite last_chars_short; [done|].
  rewrite length_upper, !length_str_app. lia.
Qed.

End LastThreePieces.

Lemma get_short_address_last_three_witness :
  get_short_address "dc-23-4e-8b-60:8f" = Returns "8B608F".
Proof.
  refine (proj2 (get_short_address_last_three "dc-23-4e-" "8b" "60" "8f" "-" ":"
                   _ eq_refl eq_refl _) eq_refl _).
  - right. exists "dc-23-4e", "-"%char. by split.
  - intros piece [<-|[<-|[<-|[]]]]; by split.
  - simpl. lia.
Defined.

(** ** The readable name of a discovered device *)

Section ReadableName.

Variable manufacturer : string.

(** X5.  With the credentials manager of [ha_mock.py], the readable name of
    a discovered device is the catalog name of the product and the short
    address for the two addresses the manager knows, written with [":"] in
    any letter case; the name the credentials carry and the advertised name
    are then not used.  For every other address, such as a known one
    written with ["-"], and whenever there is no manager, it is the
    advertised name (["None"] when there is none) and the short address,
    or [IndexError] when the short address cannot be formed. *)
Theorem readable_name_of_discovered_device
    (discovery_info : HaMock.BluetoothServiceInfoBleak) :
  let address := HaMock.address discovery_info in
  let advertised :=
    match get_short_address address with
    | Returns short =>
        Returns (format_s (HaMock.device_name discovery_info) +:+ " " +:+ short)
    | IndexError => IndexError
    end in
  get_device_readable_name manufacturer discovery_info
    (Some HaMock.get_device_credentials)
  = (if String.eqb (upper address) "DC:23:4E:8B:60:8F"
     then Returns "CubeTouch II 8B608F"
     else if String.eqb (upper address) "DC:23:4D:7B:E1:CE"
     then Returns "A1 PRO MAX 7BE1CE"
     else advertised)
  /\ get_device_readable_name manufacturer discovery_info None = advertised.
Proof.
  intros address advertised. split; [|done].
  unfold get_device_readable_name, HaMock.get_device_credentials.
  fold address.
  destruct (get_short_address_insensitive address) as [Hupper _].
  destruct (String.eqb (upper address) "DC:23:4E:8B:60:8F") eqn:H1.
  { apply String.eqb_eq in H1. rewrite <- Hupper, H1. reflexivity. }
  destruct (String.eqb (upper address) "DC:23:4D:7B:E1:CE") eqn:H2.
  { apply String.eqb_eq in H2. rewrite <- Hupper, H2. reflexivity. }
  done.
Qed.

End ReadableName.

Example readable_name_with_dashes :
  get_device_readable_name "Tuya"
    {| HaMock.address := "dc-23-4e-8b-60-8f"; HaMock.device_name := None |}
    (Some HaMock.get_device_credentials)
  = Returns "None 8B608F".
Proof. reflexivity. Qed.

(** ** More on the coordinator *)

Section Liveness.

Variable SET_DISCONNECTED_DELAY : Z.

Local Abbreviation step := (Devices.step SET_DISCONNECTED_DELAY).
Local Abbreviation run := (Devices.run SET_DISCONNECTED_DELAY).

Lemma step_connected_quiet (s : session) (e : event) :
  quiet s ->
  connected (coordinator (step s e))
  = connected (coordinator s) || liveness e.
Proof.
  intros Hq. destruct e; simpl.
  - rewrite connect_connected by done. by rewrite orb_true_r.
  - rewrite connect_connected by done. by rewrite orb_true_r.
  - unfold _async_handle_disconnect.
    destruct (_unsub_disconnect _); by rewrite orb_false_r.
  - destruct Hq as [Hu Ht]. unfold elapse. rewrite Ht. simpl.
    by rewrite orb_false_r.
Qed.

Lemma run_connected_quiet (es : list event) (s : session) :
  quiet s ->
  connected (coordinator (run s es))
  = connected (coordinator s) || existsb liveness es.
Proof.
  revert s; induction es as [|e es IH]; intros s Hq; simpl.
  - by rewrite orb_false_r.
  - rewrite IH by (by apply step_quiet).
    by rewrite step_connected_quiet, orb_assoc.
Qed.

(** X6.  A new coordinator reports connected exactly when it has received
    a connected callback or a datapoint update, whatever else happened
    before or after: it starts disconnected, an update counts as a
    connect, and neither a disconnected callback nor the passing of time
    changes what it reports. *)
Theorem connected_iff_seen_alive (d : TuyaBLEDevice) (es : list event) :
  connected (coordinator (run (new_session d) es)) = existsb liveness es.
Proof.
  by rewrite run_connected_quiet by apply new_session_quiet.
Qed.

Lemma set_disconnected_keeps (s : session) :
  device (_set_disconnected s) = device s
  /\ loop (_set_disconnected s) = loop s.
Proof. done. Qed.

Lemma fire_keeps {A : Type} (due : list A) (s : session) :
  device (fold_left (fun s _ => _set_disconnected s) due s) = device s
  /\ tasks (loop (fold_left (fun s _ => _set_disconnected s) due s))
     = tasks (loop s).
Proof.
  revert s; induction due as [|t due IH]; intros s; simpl; [done|].
  destruct (IH (_set_disconnected s)) as [-> ->]. done.
Qed.

Lemma connect_keeps_device (s : session) :
  device (_async_handle_connect s) = device s
  /\ tasks (loop (_async_handle_connect s)) = tasks (loop s).
Proof.
  unfold _async_handle_connect.
  destruct (_unsub_disconnect (coordinator s)) as [unsub|].
  - by destruct (_disconnected (coordinator (cancel unsub s))).
  - by destruct (_disconnected (coordinator s)).
Qed.

Lemma step_keeps_device (s : session) (e : event) :
  device (step s e) = device s
  /\ tasks (loop (step s e)) = tasks (loop s).
Proof.
  destruct e; simpl.
  - apply connect_keeps_device.
  - apply connect_keeps_device.
  - unfold _async_handle_disconnect. by destruct (_unsub_disconnect _).
  - unfold elapse. by destruct (fire_keeps
      (filter (fun t => snd t - dt ≤ 0) (timers (loop s)))
      (set_timers (map (fun t => (fst t, snd t - dt))
                     (filter (fun t => ¬ snd t - dt ≤ 0) (timers (loop s)))) s))
      as [-> ->].
Qed.

(** X7.  The coordinator never touches the device: after any sequence of
    callbacks and lapses of time, from any session, the datapoint store and
    the writes still pending are what they were. *)
Theorem coordinator_keeps_store_and_writes (s : session) (es : list event) :
  datapoints (device (run s es)) = datapoints (device s)
  /\ pending (run s es) = pending s.
Proof.
  unfold pending.
  revert s; induction es as [|e es IH]; intros s; simpl; [done|].
  destruct (IH (step s e)) as [-> ->].
  by destruct (step_keeps_device s e) as [-> ->].
Qed.

End Liveness.

(** ** The fingerbot mode gates *)

Section FingerbotModes.

Lemma eq_int_exclusive (v : Py.value) (n m : Z) :
  n ≠ m -> eq_int v n && eq_int v m = false.
Proof.
  intros Hne. destruct v as [|b|z|bs|str]; simpl; try done.
  - destruct (_ =? n) eqn:H1, (_ =? m) eqn:H2; try done. lia.
  - destruct (z =? n) eqn:H1, (z =? m) eqn:H2; try done. lia.
Qed.

Variables (s : session) (product : TuyaBLEProductInfo).
Variables (d : TuyaBLEDevice) (switch_dp reverse_dp push_dp : Z).

Let sw := Switch.TuyaBLESwitch_init d product
            (Switch.TuyaBLEFingerbotSwitchMapping switch_dp).
Let rv := Switch.TuyaBLESwitch_init d product
            (Switch.TuyaBLEReversePositionsMapping reverse_dp).
Let bt := Button.TuyaBLEButton_init d product
            (Button.TuyaBLEFingerbotModeMapping push_dp).

(** X8.  The three mode predicates of a fingerbot exclude one another when
    the store has the mode datapoint, and all hold when the product is no
    fingerbot or the mode datapoint is missing.  So the fingerbot switch
    and the reverse-positions switch are available together, and never
    together with the push button, as long as the mode is known; with the
    mode unknown all three surfaces are available whenever the coordinator
    is connected. *)
Theorem fingerbot_modes_exclude_each_other :
  let push := Button.is_fingerbot_in_push_mode s product in
  let switch := Switch.is_fingerbot_in_switch_mode s product in
  let program := Switch.is_fingerbot_in_program_mode s product in
  let mode_value := fb ← fingerbot product; stored s (mode fb) in
  (forall v, mode_value = Some v ->
     (push = eq_int v 0 /\ switch = eq_int v 1 /\ program = eq_int v 2)
     /\ (push && switch = false /\ push && program = false
         /\ switch && program = false)
     /\ Switch.available sw s = Switch.available rv s
     /\ Switch.available sw s && Button.available bt s = false)
  /\ (mode_value = None ->
      (push = true /\ switch = true /\ program = true)
      /\ Switch.available sw s = connected (coordinator s)
      /\ Switch.available rv s = connected (coordinator s)
      /\ Button.available bt s = connected (coordinator s)).
Proof.
  intros push switch program mode_value.
  subst push switch program mode_value sw rv bt.
  rewrite !switch_available_eq, button_available_eq; simpl.
  unfold Button.is_fingerbot_in_push_mode, Switch.is_fingerbot_in_switch_mode,
    Switch.is_fingerbot_in_program_mode, getitem, stored.
  destruct (fingerbot product) as [fb|]; simpl.
  - destruct (datapoints (device s) !! mode fb) as [dp|]; simpl.
    + split; [|done]. intros v [= <-].
      split; [done|].
      split; [by rewrite !eq_int_exclusive|].
      split; [done|].
      destruct (connected (coordinator s)); simpl; [|done].
      rewrite andb_comm. by apply eq_int_exclusive.
    + split; [done|]. intros _. by rewrite !andb_true_r.
  - split; [done|]. intros _. by rewrite !andb_true_r.
Qed.

End FingerbotModes.

(** ** Reading a switch after writing it *)

Section ReadBack.

Variable sw : Switch.TuyaBLESwitch.

Let key : Z := Switch.dp_id (Switch._mapping sw).

Hypothesis Hgetter : Switch.getter (Switch._mapping sw) = None.

(** Without a getter and without a mask, [is_on] is the truthiness of the
    stored value, and false when there is none. *)
Lemma is_on_plain (s : session) :
  bytes_truthy (Switch.bitmap_mask (Switch._mapping sw)) = false ->
  Switch.is_on sw s
  = Ok (Some (match stored s key with Some v => truthy v | None => false end)).
Proof.
  intros Hm. unfold Switch.is_on, getitem, stored. fold key.
  rewrite Hgetter, Hm.
  destruct (datapoints (device s) !! key); simpl; [|done].
  by rewrite andb_false_r.
Qed.

Lemma stored_bool_write (s : session) (dflt target : bool) :
  stored (snd (Spec.bool_write sw s dflt target)) key
  = Some (default (VBool dflt) (stored s key))
  /\ stored (run_tasks (snd (Spec.bool_write sw s dflt target))) key
     = Some (VBool target).
Proof.
  unfold Spec.bool_write; simpl. fold key. split.
  - unfold stored; simpl. rewrite get_or_create_lookup; simpl.
    by rewrite get_or_create_value.
  - eapply stored_run_tasks_last; [|apply pending_create_task].
    simpl. rewrite get_or_create_lookup. eauto.
Qed.

(** X9.  A switch with no getter, no setter and no mask reads back what
    was written once the write has completed: on after [turn_on], off after
    [turn_off].  Until then it still reads the stored value, except that a
    datapoint the store did not have reads on right after [turn_on] (it is
    created as [True]) and off right after [turn_off]. *)
Theorem bool_switch_reads_back (s : session) :
  Switch.setter (Switch._mapping sw) = None ->
  bytes_truthy (Switch.bitmap_mask (Switch._mapping sw)) = false ->
  (Switch.is_on sw (run_tasks (snd (Switch.turn_on sw s))) = Ok (Some true)
   /\ Switch.is_on sw (run_tasks (snd (Switch.turn_off sw s))) = Ok (Some false))
  /\ Switch.is_on sw (snd (Switch.turn_on sw s))
     = Ok (Some (match stored s key with Some v => truthy v | None => true end))
  /\ Switch.is_on sw (snd (Switch.turn_off sw s))
     = Ok (Some (match stored s key with Some v => truthy v | None => false end)).
Proof.
  intros Hs Hm.
  rewrite (turn_on_bool sw s Hs Hm), (turn_off_bool sw s Hs Hm).
  rewrite !is_on_plain by done.
  destruct (stored_bool_write s true true) as [Hon1 Hon2].
  destruct (stored_bool_write s false false) as [Hoff1 Hoff2].
  rewrite Hon1, Hon2, Hoff1, Hoff2.
  by destruct (stored s key).
Qed.

End ReadBack.

Lemma bool_switch_reads_back_witness :
  let s := Sample.session_with [Sample.datapoint 78 DT_BOOL (VBool false)] in
  Switch.is_on Sample.bool_switch s = Ok (Some false)
  /\ Switch.is_on Sample.bool_switch (snd (Switch.turn_on Sample.bool_switch s))
     = Ok (Some false)
  /\ Switch.is_on Sample.bool_switch
       (run_tasks (snd (Switch.turn_on Sample.bool_switch s)))
     = Ok (Some true).
Proof.
  intros s. split; [reflexivity|].
  destruct (bool_switch_reads_back Sample.bool_switch eq_refl s eq_refl eq_refl)
    as ((Hon & _) & Hnow & _).
  split; [exact Hnow|exact Hon].
Defined.

Section BitmapReadBack.

Lemma land_lor_mask (v m : Z) : Z.land (Z.lor v m) m = m.
Proof.
  apply Z.bits_inj'. intros j _. rewrite Z.land_spec, Z.lor_spec.
  by destruct (Z.testbit v j), (Z.testbit m j).
Qed.

Lemma land_cleared_mask (v m : Z) : Z.land (Z.land v (Z.lnot m)) m = 0.
Proof.
  apply Z.bits_inj'. intros j _.
  rewrite Z.land_spec, land_lnot_bits, Z.bits_0.
  by destruct (Z.testbit v j), (Z.testbit m j).
Qed.

Lemma int_of_byte_inj (a b : byte) : int_of_byte a = int_of_byte b -> a = b.
Proof.
  unfold int_of_byte. intros H%N2Z.inj.
  apply (f_equal Byte.of_N) in H. rewrite !Byte.of_to_N in H. congruence.
Qed.

Lemma ints_inj (a b : bytes) : ints a = ints b -> a = b.
Proof.
  revert b; induction a as [|x a IH]; intros [|y b]; simpl; try done.
  intros [= Hxy Hab]. f_equal; [by apply int_of_byte_inj|by apply IH].
Qed.

Lemma masked_after_on (xs ms : list Z) :
  length xs = length ms ->
  existsb Spec.masked (zip (zip_with Z.lor xs ms) ms)
  = existsb (fun m => negb (m =? 0)) ms.
Proof.
  revert ms; induction xs as [|x xs IH]; intros [|m ms] Hlen;
    simpl in *; try done.
  unfold Spec.masked at 1; simpl. rewrite land_lor_mask, IH by lia. done.
Qed.

Lemma masked_after_off (xs ms : list Z) :
  existsb Spec.masked
    (zip (zip_with (fun v m => Z.land v (Z.lnot m)) xs ms) ms) = false.
Proof.
  revert ms; induction xs as [|x xs IH]; intros [|m ms]; simpl; try done.
  unfold Spec.masked at 1; simpl. by rewrite land_cleared_mask, IH.
Qed.

(** Completing writes changes values, never types. *)
Lemma complete_type (c : coroutine) (dps : TuyaBLEDataPoints) (key : Z) :
  type <$> complete c dps !! key = type <$> dps !! key.
Proof.
  destruct c as [target v]; simpl.
  destruct (decide (target = key)) as [->|Hne].
  - rewrite lookup_alter_eq. by destruct (dps !! key).
  - by rewrite lookup_alter_ne.
Qed.

Lemma run_tasks_type (s : session) (key : Z) :
  type <$> datapoints (device (run_tasks s)) !! key
  = type <$> datapoints (device s) !! key.
Proof.
  unfold run_tasks; simpl.
  generalize (datapoints (device s)).
  induction (tasks (loop s)) as [|c cs IH]; intros dps; simpl; [done|].
  by rewrite IH, complete_type.
Qed.

End BitmapReadBack.

Section BitmapSwitchReads.

Variable sw : Switch.TuyaBLESwitch.
Variable mask : bytes.

Let key : Z := Switch.dp_id (Switch._mapping sw).

Hypothesis Hgetter : Switch.getter (Switch._mapping sw) = None.
Hypothesis Hsetter : Switch.setter (Switch._mapping sw) = None.
Hypothesis Hmask : Switch.bitmap_mask (Switch._mapping sw) = Some mask.
Hypothesis Htruthy : bytes_truthy (Switch.bitmap_mask (Switch._mapping sw)) = true.

(** What [is_on] reads from a raw or bitmap datapoint that holds bytes of
    the mask's length. *)
Lemma is_on_same_length (s : session) (t : TuyaBLEDataPointType) (w : bytes) :
  type <$> datapoints (device s) !! key = Some t ->
  Switch.raw_or_bitmap t = true ->
  stored s key = Some (VBytes w) ->
  length w = length mask ->
  Switch.is_on sw s = Ok (Some (existsb Spec.masked (zip (ints w) (ints mask)))).
Proof.
  intros Ht Hraw Hst Hlen. unfold stored in Hst.
  destruct (datapoints (device s) !! key) as [dp|] eqn:Hl; [|done].
  simpl in Ht, Hst. injection Ht as Ht. injection Hst as Hv.
  rewrite (is_on_bitmap_eq sw mask Hmask Htruthy s dp w Hgetter Hl)
    by (done || by rewrite Ht).
  rewrite decide_True by done. by destruct (existsb _ _).
Qed.

Lemma is_on_create_task (c : coroutine) (s : session) :
  Switch.is_on sw (create_task c s) = Switch.is_on sw s.
Proof. unfold Switch.is_on. by rewrite Hgetter. Qed.

Variables (s : session) (dp : TuyaBLEDataPoint) (bs : bytes).

Hypothesis Hlookup : datapoints (device s) !! key = Some dp.
Hypothesis Htype : Switch.raw_or_bitmap (type dp) = true.
Hypothesis Hvalue : value dp = VBytes bs.
Hypothesis Hlen : length bs = length mask.

(** X10.  A switch with a non-empty mask and neither getter nor setter, on
    a raw or bitmap datapoint that holds bytes of the mask's length: [is_on]
    does not raise and tells whether some byte of the value has a bit in
    common with the mask.  After [turn_off] and the completion of its write
    it reads off.  After [turn_on] and the completion of its write it reads
    on provided the mask has a bit set at all; with an all-zero mask the
    switch can never read on.  Until the write completes it reads as
    before. *)
Theorem bitmap_switch_reads_back :
  Switch.is_on sw s = Ok (Some (existsb Spec.masked (zip (ints bs) (ints mask))))
  /\ Switch.is_on sw (run_tasks (snd (Switch.turn_on sw s)))
     = Ok (Some (Spec.some_bit mask))
  /\ Switch.is_on sw (run_tasks (snd (Switch.turn_off sw s))) = Ok (Some false)
  /\ Switch.is_on sw (snd (Switch.turn_on sw s)) = Switch.is_on sw s
  /\ Switch.is_on sw (snd (Switch.turn_off sw s)) = Switch.is_on sw s.
Proof.
  assert (Hty : forall c, type <$> datapoints (device (run_tasks (create_task c s))) !! key
                          = Some (type dp)).
  { intros c. rewrite run_tasks_type; simpl. fold key. by rewrite Hlookup. }
  assert (Hst : forall v, stored (run_tasks (create_task (set_value key v) s)) key
                          = Some v).
  { intros v. eapply stored_run_tasks_last; [|apply pending_create_task].
    simpl. fold key. rewrite Hlookup. eauto. }
  destruct (turn_on_bitmap sw mask Hmask Htruthy Hsetter s dp bs Hlookup Hvalue Hlen)
    as (w_on & Hon & Hion).
  destruct (turn_off_bitmap sw mask Hmask Htruthy Hsetter s dp bs Hlookup Hvalue Hlen)
    as (w_off & Hoff & Hioff).
  fold key in Hon, Hoff. rewrite Hon, Hoff; simpl.
  rewrite !is_on_create_task.
  split.
  { apply (is_on_same_length s (type dp) bs); try done.
    - by rewrite Hlookup.
    - unfold stored. by rewrite Hlookup, <- Hvalue. }
  split.
  { rewrite (is_on_same_length _ (type dp) w_on (Hty _) Htype (Hst _)).
    - by rewrite Hion, masked_after_on by (by rewrite !ints_length).
    - rewrite <- (ints_length w_on), Hion, length_zip_with, !ints_length. lia. }
  split; [|done].
  rewrite (is_on_same_length _ (type dp) w_off (Hty _) Htype (Hst _)).
  - by rewrite Hioff, masked_after_off.
  - rewrite <- (ints_length w_off), Hioff, length_zip_with, !ints_length. lia.
Qed.

End BitmapSwitchReads.

Lemma bitmap_switch_reads_back_witness :
  let s := Sample.session_with
             [Sample.datapoint 20 DT_BITMAP (VBytes [x06; x01])] in
  Switch.is_on Sample.bitmap_switch s = Ok (Some false)
  /\ Switch.is_on Sample.bitmap_switch
       (run_tasks (snd (Switch.turn_on Sample.bitmap_switch s)))
     = Ok (Some true).
Proof.
  intros s.
  destruct (bitmap_switch_reads_back Sample.bitmap_switch [x01; x80]
              eq_refl eq_refl eq_refl eq_refl s
              (Sample.datapoint 20 DT_BITMAP (VBytes [x06; x01])) [x06; x01]
              eq_refl eq_refl eq_refl eq_refl) as (Hnow & Hon & _).
  split; [exact Hnow|exact Hon].
Defined.

Section BitmapOnUnknownDatapoint.

Lemma zip_with_diag {A B : Type} (f : A -> A -> B) (l : list A) :
  zip_with f l l = map (fun x => f x x) l.
Proof. induction l as [|x l IH]; simpl; [done|by rewrite IH]. Qed.

Lemma ints_repeat_zero (n : nat) : ints (repeat x00 n) = repeat 0 n.
Proof. induction n as [|n IH]; simpl; [done|by rewrite IH]. Qed.

Lemma map_const_zero {A : Type} (l : list A) :
  map (fun _ => 0) l = repeat 0 (length l).
Proof. induction l as [|x l IH]; simpl; [done|by rewrite IH]. Qed.

Lemma masked_diag (ms : list Z) :
  existsb Spec.masked (zip ms ms) = existsb (fun m => negb (m =? 0)) ms.
Proof.
  induction ms as [|m ms IH]; simpl; [done|].
  unfold Spec.masked at 1; simpl. by rewrite Z.land_diag, IH.
Qed.

Lemma masked_zeros (n : nat) (ms : list Z) :
  existsb Spec.masked (zip (repeat 0 n) ms) = false.
Proof.
  revert ms; induction n as [|n IH]; intros [|m ms]; simpl; try done.
Qed.

Variable sw : Switch.TuyaBLESwitch.
Variable mask : bytes.
Variable s : session.

Let key : Z := Switch.dp_id (Switch._mapping sw).

(** The session once [get_or_create] has stored the new datapoint. *)
Let created : session :=
  set_datapoints
    (snd (get_or_create (datapoints (device s)) key DT_BITMAP (VBytes mask))) s.

Hypothesis Hgetter : Switch.getter (Switch._mapping sw) = None.
Hypothesis Hsetter : Switch.setter (Switch._mapping sw) = None.
Hypothesis Hmask : Switch.bitmap_mask (Switch._mapping sw) = Some mask.
Hypothesis Htruthy : bytes_truthy (Switch.bitmap_mask (Switch._mapping sw)) = true.
Hypothesis Habsent : datapoints (device s) !! key = None.

Lemma created_lookup :
  datapoints (device created) !! key
  = Some {| id := key; type := DT_BITMAP; value := VBytes mask;
            changed_by_device := false |}.
Proof.
  unfold created. rewrite (get_or_create_absent _ _ _ _ Habsent); simpl.
  by rewrite lookup_insert_eq.
Qed.

Lemma set_datapoints_twice (dps : TuyaBLEDataPoints) :
  set_datapoints dps (set_datapoints dps s) = set_datapoints dps s.
Proof. done. Qed.

Lemma turn_on_unknown : Switch.turn_on sw s = Switch.turn_on sw created.
Proof.
  unfold Switch.turn_on. rewrite Hsetter, Htruthy, Hmask; simpl. fold key.
  rewrite (get_or_create_present _ _ _ _ _ created_lookup).
  unfold created. rewrite (get_or_create_absent _ _ _ _ Habsent); simpl.
  done.
Qed.

Lemma turn_off_unknown : Switch.turn_off sw s = Switch.turn_off sw created.
Proof.
  unfold Switch.turn_off. rewrite Hsetter, Htruthy, Hmask; simpl. fold key.
  rewrite (get_or_create_present _ _ _ _ _ created_lookup).
  unfold created. rewrite (get_or_create_absent _ _ _ _ Habsent); simpl.
  done.
Qed.

(** X11.  A switch with a non-empty mask and neither getter nor setter, on
    a datapoint the store does not have: [turn_on] and [turn_off] both
    create the datapoint as a bitmap whose value is the mask itself, so it
    is created "on"; [turn_on] then schedules a write of the mask and
    [turn_off] a write of as many zero bytes.  Neither raises.  After
    [turn_off] the switch therefore reads on (if the mask has a bit set)
    until the write completes, and off from then on. *)
Theorem bitmap_switch_on_unknown_datapoint :
  (Switch.turn_on sw s
   = (Ok (), create_task (set_value key (VBytes mask)) created)
   /\ Switch.turn_off sw s
      = (Ok (),
         create_task (set_value key (VBytes (repeat x00 (length mask)))) created))
  /\ stored created key = Some (VBytes mask)
  /\ Switch.is_on sw (snd (Switch.turn_off sw s)) = Ok (Some (Spec.some_bit mask))
  /\ Switch.is_on sw (run_tasks (snd (Switch.turn_off sw s))) = Ok (Some false)
  /\ Switch.is_on sw (run_tasks (snd (Switch.turn_on sw s)))
     = Ok (Some (Spec.some_bit mask)).
Proof.
  rewrite turn_on_unknown, turn_off_unknown.
  destruct (turn_on_bitmap sw mask Hmask Htruthy Hsetter created _ mask
              created_lookup eq_refl eq_refl) as (w_on & Hon & Hion).
  destruct (turn_off_bitmap sw mask Hmask Htruthy Hsetter created _ mask
              created_lookup eq_refl eq_refl) as (w_off & Hoff & Hioff).
  assert (w_on = mask) as ->.
  { apply ints_inj. rewrite Hion, zip_with_diag.
    rewrite <- (map_id (ints mask)) at 2. apply map_ext. intros; apply Z.lor_diag. }
  assert (w_off = repeat x00 (length mask)) as ->.
  { apply ints_inj. rewrite Hioff, zip_with_diag, ints_repeat_zero.
    rewrite <- (ints_length mask), <- map_const_zero.
    apply map_ext. intros; apply Z.land_lnot_diag. }
  fold key in Hon, Hoff. rewrite Hon, Hoff; simpl.
  assert (Hst : stored created key = Some (VBytes mask)).
  { unfold stored. by rewrite created_lookup. }
  assert (Hty : type <$> datapoints (device created) !! key = Some DT_BITMAP).
  { by rewrite created_lookup. }
  assert (Hrun : forall v,
            type <$> datapoints (device (run_tasks
                        (create_task (set_value key v) created))) !! key
            = Some DT_BITMAP
            /\ stored (run_tasks (create_task (set_value key v) created)) key
               = Some v).
  { intros v. split.
    - by rewrite run_tasks_type.
    - eapply stored_run_tasks_last; [|apply pending_create_task].
      change (datapoints (device (create_task (set_value key v) created)))
        with (datapoints (device created)).
      rewrite created_lookup. eauto. }
  split; [done|]. split; [done|].
  rewrite (is_on_create_task sw Hgetter).
  rewrite (is_on_same_length sw mask Hgetter Hmask Htruthy created DT_BITMAP mask)
    by done.
  destruct (Hrun (VBytes (repeat x00 (length mask)))) as [Ht0 Hs0].
  destruct (Hrun (VBytes mask)) as [Ht1 Hs1].
  rewrite (is_on_same_length sw mask Hgetter Hmask Htruthy _ DT_BITMAP _ Ht0 eq_refl Hs0)
    by apply repeat_length.
  rewrite (is_on_same_length sw mask Hgetter Hmask Htruthy _ DT_BITMAP _ Ht1 eq_refl Hs1)
    by done.
  unfold Spec.some_bit. rewrite masked_diag.
  split; [done|]. split; [|done].
  by rewrite ints_repeat_zero, masked_zeros.
Qed.

End BitmapOnUnknownDatapoint.

Lemma bitmap_switch_on_unknown_datapoint_witness :
  let s := Sample.session_with [] in
  datapoints (device s) !! 20 = None
  /\ Switch.is_on Sample.bitmap_switch s = Ok (Some false)
  /\ Switch.is_on Sample.bitmap_switch (snd (Switch.turn_off Sample.bitmap_switch s))
     = Ok (Some true)
  /\ Switch.is_on Sample.bitmap_switch
       (run_tasks (snd (Switch.turn_off Sample.bitmap_switch s)))
     = Ok (Some false).
Proof.
  intros s. split; [reflexivity|]. split; [reflexivity|].
  destruct (bitmap_switch_on_unknown_datapoint Sample.bitmap_switch [x01; x80] s
              eq_refl eq_refl eq_refl eq_refl eq_refl)
    as (_ & _ & Hnow & Hlater & _).
  split; [exact Hnow|exact Hlater].
Defined.

(** ** More on the program-repeat field *)

Section RepeatCount.

Lemma int_of_byte_ff (b : byte) : int_of_byte b = 255 -> b = xff.
Proof. intros H. by apply int_of_byte_inj. Qed.

(** The first two bytes read as [0xFFFF] exactly when both are [FF]; a
    value of fewer than two bytes never does. *)
Lemma repeat_count_ffff (bs : bytes) :
  (int_from_bytes_big (slice bs 0 2) =? 0xFFFF)
  = match bs with
    | b1 :: b2 :: _ => Byte.eqb b1 xff && Byte.eqb b2 xff
    | _ => false
    end.
Proof.
  unfold slice, int_from_bytes_big. destruct bs as [|b1 [|b2 rest]]; simpl.
  - done.
  - pose proof (int_of_byte_range b1). apply Z.eqb_neq. lia.
  - pose proof (int_of_byte_range b1). pose proof (int_of_byte_range b2).
    destruct (Byte.eqb b1 xff && Byte.eqb b2 xff) eqn:Hff.
    + apply andb_true_iff in Hff as [->%Byte.byte_dec_bl ->%Byte.byte_dec_bl].
      done.
    + apply Z.eqb_neq. intros Heq.
      assert (int_of_byte b1 = 255 /\ int_of_byte b2 = 255) as [H1 H2] by lia.
      apply int_of_byte_ff in H1, H2. subst. done.
Qed.

Variables (s : session) (product : TuyaBLEProductInfo).

(** X12.  Whenever the getter answers at all, it answers true exactly when
    the stored program starts with the two bytes [FF FF]; a program of
    fewer than two bytes reads as not repeating forever. *)
Theorem repeat_forever_reads_ffff (b : bool) :
  Switch.get_fingerbot_program_repeat_forever s product = Some b ->
  exists (fb : TuyaBLEFingerbotInfo) (bs : bytes),
    fingerbot product = Some fb
    /\ stored s (program fb) = Some (VBytes bs)
    /\ b = match bs with
           | b1 :: b2 :: _ => Byte.eqb b1 xff && Byte.eqb b2 xff
           | _ => false
           end.
Proof.
  unfold Switch.get_fingerbot_program_repeat_forever, getitem, stored.
  destruct (fingerbot product) as [fb|]; [|done].
  destruct (negb (program fb =? 0)); [|done].
  destruct (datapoints (device s) !! program fb) as [dp|] eqn:Hl; [|done]; simpl.
  destruct (value dp) as [| | |bs|] eqn:Hv; try done.
  intros [= <-]. exists fb, bs. by rewrite repeat_count_ffff, Hl, <- Hv.
Qed.

(** X13.  The setter never changes the store itself.  It schedules a
    write exactly when the getter has an answer, and is without any effect
    when the getter answers [None]: for a product without fingerbot data or
    without a program datapoint id, for a datapoint the store does not
    have, and for a value that is not [bytes].  In particular it never
    creates the program datapoint. *)
Theorem repeat_forever_setter_effect (v : bool) :
  let s' := Switch.set_fingerbot_program_repeat_forever s product v in
  datapoints (device s') = datapoints (device s)
  /\ (Switch.get_fingerbot_program_repeat_forever s product = None -> s' = s)
  /\ (forall b, Switch.get_fingerbot_program_repeat_forever s product = Some b ->
        exists (fb : TuyaBLEFingerbotInfo) (bs : bytes),
          fingerbot product = Some fb
          /\ stored s (program fb) = Some (VBytes bs)
          /\ pending s'
             = pending s
               ++ [set_value (program fb)
                     (VBytes ((if v then [xff; xff] else [x00; x01])
                              ++ skipn 2 bs))]).
Proof.
  intros s'. subst s'.
  unfold Switch.set_fingerbot_program_repeat_forever,
    Switch.get_fingerbot_program_repeat_forever, getitem, stored.
  destruct (fingerbot product) as [fb|]; [|done].
  destruct (negb (program fb =? 0)); [|done].
  destruct (datapoints (device s) !! program fb) as [dp|] eqn:Hl; [|done]; simpl.
  destruct (value dp) as [| | |bs|] eqn:Hv; try done.
  split; [done|]. split; [done|].
  intros b _. exists fb, bs. split; [done|].
  split; [by rewrite Hl, <- Hv|].
  by destruct v.
Qed.

End RepeatCount.

Lemma repeat_forever_reads_ffff_witness :
  let s := Sample.session_with [Sample.datapoint 121 DT_RAW (VBytes [xff])] in
  Switch.get_fingerbot_program_repeat_forever s Sample.fingerbot_product
  = Some false
  /\ exists (fb : TuyaBLEFingerbotInfo) (bs : bytes),
       fingerbot Sample.fingerbot_product = Some fb
       /\ stored s (program fb) = Some (VBytes bs)
       /\ false = match bs with
                  | b1 :: b2 :: _ => Byte.eqb b1 xff && Byte.eqb b2 xff
                  | _ => false
                  end.
Proof.
  intros s. split; [reflexivity|].
  exact (repeat_forever_reads_ffff s Sample.fingerbot_product false eq_refl).
Defined.

Section RepeatRoundTrip.

Variables (s : session) (product : TuyaBLEProductInfo).
Variables (fb : TuyaBLEFingerbotInfo) (dp : TuyaBLEDataPoint) (bs : bytes).

Hypothesis Hfingerbot : fingerbot product = Some fb.
Hypothesis Hprogram : program fb ≠ 0.
Hypothesis Hlookup : datapoints (device s) !! program fb = Some dp.
Hypothesis Hvalue : value dp = VBytes bs.

(** X14.  For a fingerbot whose program datapoint holds [bytes], the getter
    reads back what the setter was called with once the write has
    completed, for [False] as for [True].  Setting [False] writes the
    repeat count 1 whatever count the program had before, so the earlier
    count does not come back; the bytes from offset 2 on are kept. *)
Theorem repeat_forever_set_then_get (v : bool) :
  let s1 := run_tasks (Switch.set_fingerbot_program_repeat_forever s product v) in
  Switch.get_fingerbot_program_repeat_forever s1 product = Some v
  /\ stored s1 (program fb)
     = Some (VBytes ((if v then [xff; xff] else [x00; x01]) ++ skipn 2 bs)).
Proof.
  intros s1. subst s1.
  rewrite (set_repeat_forever_eq s product fb dp bs Hfingerbot Hprogram Hlookup Hvalue).
  assert (Hst : stored (run_tasks (create_task
                  (set_value (program fb)
                     (VBytes (int_to_bytes_big (if v then 65535 else 1) 2
                              ++ skipn 2 bs))) s)) (program fb)
                = Some (VBytes ((if v then [xff; xff] else [x00; x01])
                                ++ skipn 2 bs))).
  { erewrite stored_run_tasks_last; [|simpl; rewrite Hlookup; eauto
                                     |apply pending_create_task].
    by destruct v. }
  split; [|done].
  rewrite (repeat_forever_getter_reads _ _ _ _ Hfingerbot Hprogram Hst).
  by destruct v.
Qed.

End RepeatRoundTrip.

Lemma repeat_forever_set_then_get_witness :
  let s := Sample.session_with
             [Sample.datapoint 121 DT_RAW (VBytes [x00; x07; x0a; x0b])] in
  stored (run_tasks (Switch.set_fingerbot_program_repeat_forever s
                       Sample.fingerbot_product false)) 121
  = Some (VBytes [x00; x01; x0a; x0b])
  /\ Switch.get_fingerbot_program_repeat_forever
       (run_tasks (Switch.set_fingerbot_program_repeat_forever s
                     Sample.fingerbot_product false))
       Sample.fingerbot_product
     = Some false.
Proof.
  intros s.
  destruct (repeat_forever_set_then_get s Sample.fingerbot_product
              Sample.fingerbot_info
              (Sample.datapoint 121 DT_RAW (VBytes [x00; x07; x0a; x0b]))
              [x00; x07; x0a; x0b]
              eq_refl ltac:(discriminate) eq_refl eq_refl false) as [Hget Hst].
  split; [exact Hst|exact Hget].
Defined.

(** ** Setup on the tables of the source *)

Section SourceTables.

Lemma fromkeys_Forall {V : Type} (P : V -> Prop) (keys : list string) (v : V) :
  P v -> map_Forall (fun _ l => P l) (Switch.fromkeys keys v).
Proof.
  intros Hv. unfold Switch.fromkeys.
  induction keys as [|k keys IH]; simpl.
  - apply map_Forall_empty.
  - by apply map_Forall_insert_2.
Qed.

(** The mapping lists the switch table holds. *)
Let switch_lists : list (list Switch.TuyaBLESwitchMapping) :=
  [ [Switch.mk_TuyaBLESwitchMapping 47 (describe "lock_motor_state")];
    [Switch.TuyaBLEFingerbotSwitchMapping 1;
     Switch.TuyaBLEReversePositionsMapping 4];
    [Switch.TuyaBLEFingerbotSwitchMapping 2;
     Switch.TuyaBLEReversePositionsMapping 11];
    [Switch.mk_TuyaBLESwitchMapping 78 (describe "special_control")] ].

Let button_lists : list (list Button.TuyaBLEButtonMapping) :=
  [ [Button.TuyaBLELockMapping 46 (describe "manual_lock");
     Button.TuyaBLELockMapping 6 (describe "manual_unlock")] ].

Lemma switch_table_lists :
  map_Forall
    (fun _ cat =>
       Switch.mapping_ cat = None
       /\ exists prods, Switch.products cat = Some prods
                        /\ map_Forall (fun _ l => In l switch_lists) prods)
    Switch.mapping.
Proof.
  unfold Switch.mapping.
  repeat (apply map_Forall_insert_2;
          [split; [reflexivity|eexists; split; [reflexivity|]]|]);
    try apply map_Forall_empty.
  - apply fromkeys_Forall. simpl; tauto.
  - apply map_Forall_union_2; apply fromkeys_Forall; simpl; tauto.
  - apply map_Forall_insert_2; [simpl; tauto|apply map_Forall_empty].
Qed.

Lemma button_table_lists :
  map_Forall
    (fun _ cat =>
       Button.mapping_ cat = None
       /\ exists prods, Button.products cat = Some prods
                        /\ map_Forall (fun _ l => In l button_lists) prods)
    Button.mapping.
Proof.
  unfold Button.mapping.
  apply map_Forall_insert_2; [|apply map_Forall_empty].
  split; [reflexivity|]. eexists; split; [reflexivity|].
  apply map_Forall_insert_2; [simpl; tauto|apply map_Forall_empty].
Qed.

(** Every device resolves to the empty list or to one of the lists of the
    table. *)
Lemma switch_resolved (d : TuyaBLEDevice) :
  In (Switch.get_mapping_by_device d) ([] :: switch_lists).
Proof.
  unfold Switch.get_mapping_by_device, Switch.get_mapping_by_device_in.
  destruct (Switch.mapping !! category d) as [cat|] eqn:Hc; [|by left].
  destruct (switch_table_lists _ _ Hc) as (Hm & prods & Hp & Hall).
  rewrite Hp, Hm.
  destruct (prods !! product_id d) as [l|] eqn:Hl; [|by left].
  right. by apply (Hall _ _ Hl).
Qed.

Lemma button_resolved (d : TuyaBLEDevice) :
  In (Button.get_mapping_by_device d) ([] :: button_lists).
Proof.
  unfold Button.get_mapping_by_device, Button.get_mapping_by_device_in.
  destruct (Button.mapping !! category d) as [cat|] eqn:Hc; [|by left].
  destruct (button_table_lists _ _ Hc) as (Hm & prods & Hp & Hall).
  rewrite Hp, Hm.
  destruct (prods !! product_id d) as [l|] eqn:Hl; [|by left].
  right. by apply (Hall _ _ Hl).
Qed.

Lemma setup_on_source_tables (data : TuyaBLEData) :
  let d := device (data_session data) in
  Switch.async_setup_switches data
  = map (Switch.TuyaBLESwitch_init d (product data))
      (Switch.get_mapping_by_device d)
  /\ Button.async_setup_buttons data
     = map (Button.TuyaBLEButton_init d (product data))
         (Button.get_mapping_by_device d).
Proof.
  intros d. unfold Switch.async_setup_switches, Button.async_setup_buttons.
  rewrite async_setup_switches_in_filter, async_setup_buttons_in_filter.
  fold d. fold (Switch.get_mapping_by_device d) (Button.get_mapping_by_device d).
  split; f_equal.
  - pose proof (switch_resolved d) as H. simpl in H.
    destruct H as [<-|[<-|[<-|[<-|[<-|[]]]]]]; reflexivity.
  - pose proof (button_resolved d) as H. simpl in H.
    destruct H as [<-|[<-|[]]]; reflexivity.
Qed.

(** X15.  With the tables of the source, setup does not depend on what the
    store holds: every mapping in them keeps the default [force_add], so
    each resolved mapping gets its surface, in order, whether or not the
    device has reported the datapoint. *)
Theorem setup_presents_every_mapping (data : TuyaBLEData) :
  let d := device (data_session data) in
  Switch.async_setup_switches data
  = map (Switch.TuyaBLESwitch_init d (product data))
      (Switch.get_mapping_by_device d)
  /\ Button.async_setup_buttons data
     = map (Button.TuyaBLEButton_init d (product data))
         (Button.get_mapping_by_device d).
Proof. apply setup_on_source_tables. Qed.

Lemma str_app_inj (a x y : string) : a +:+ x = a +:+ y -> x = y.
Proof.
  induction a as [|c a IH]; [done|].
  rewrite !str_app_cons. intros [= H]. by apply IH.
Qed.

Lemma NoDup_map_inj {A B : Type} (f : A -> B) (l : list A) :
  (forall x y, f x = f y -> x = y) -> NoDup l -> NoDup (map f l).
Proof.
  intros Hinj. induction 1 as [|x l Hx Hl IH]; simpl; constructor; [|done].
  rewrite list_elem_of_In, in_map_iff. intros (y & Hy & Hin).
  apply Hinj in Hy. subst y. by apply Hx, list_elem_of_In.
Qed.

(** X16.  With the tables of the source, no two surfaces that setup builds
    for a device share a unique id, switches and buttons taken together. *)
Theorem setup_unique_ids_distinct (data : TuyaBLEData) :
  NoDup (map Switch._attr_unique_id (Switch.async_setup_switches data)
         ++ map Button._attr_unique_id (Button.async_setup_buttons data)).
Proof.
  destruct (setup_on_source_tables data) as [-> ->].
  set (d := device (data_session data)).
  rewrite !map_map; simpl.
  assert (Hkeys :
    NoDup (map (fun m => key (Switch.description m)) (Switch.get_mapping_by_device d)
           ++ map (fun m => key (Button.description m))
                (Button.get_mapping_by_device d))).
  { pose proof (switch_resolved d) as Hs. pose proof (button_resolved d) as Hb.
    simpl in Hs, Hb.
    destruct Hs as [<-|[<-|[<-|[<-|[<-|[]]]]]];
      destruct Hb as [<-|[<-|[]]]; simpl;
      repeat (apply NoDup_cons_2 || apply NoDup_nil_2);
      rewrite ?list_elem_of_In; simpl; intuition discriminate. }
  apply (NoDup_map_inj (fun k => device_id d +:+ "-" +:+ k)) in Hkeys.
  - by rewrite map_app, !map_map in Hkeys.
  - intros x y H. by apply str_app_inj, str_app_inj in H.
Qed.

End SourceTables.

(** ** Repeated presses *)

Section Presses.

Variable bt : Button.TuyaBLEButton.

Let key : Z := Button.dp_id (Button._mapping bt).

Lemma press_then_run_stored (s : session) :
  stored (Button.press_then_run bt s) key
  = Some (VBool (negb (truthy (default (VBool false) (stored s key))))).
Proof.
  unfold Button.press_then_run.
  eapply stored_run_tasks_last; [|apply press_pending].
  rewrite press_datapoints, get_or_create_lookup. eauto.
Qed.

(** X17.  Presses whose writes complete one after the other toggle the
    datapoint: after [n + 1] of them it holds the boolean that the value
    before the first press reads as (false if there was none), negated
    when the number of presses is odd. *)
Theorem presses_toggle (n : nat) (s : session) :
  stored (Nat.iter (S n) (Button.press_then_run bt) s) key
  = Some (VBool (xorb (truthy (default (VBool false) (stored s key)))
                   (Nat.even n))).
Proof.
  induction n as [|n IH].
  - simpl. rewrite press_then_run_stored. by rewrite xorb_true_r.
  - rewrite Nat.iter_succ, press_then_run_stored, IH.
    rewrite Nat.even_succ, <- Nat.negb_even; simpl.
    by destruct (truthy _), (Nat.even n).
Qed.

End Presses.
